(** * Offline cache manager of the BharatVRsh service worker

    A shallow embedding of [Web Platform/sw.js]: the tiered fetch
    strategies, the activation clean-up, the cache size governor, the
    deferred-action flush and the cache-bundle control message.

    Modelling conventions.
    - [CacheStorage] (the global [caches]) is a list of named caches in
      creation order; a cache is a list of entries in insertion order, as
      [cache.keys()] enumerates them.  An entry is keyed by the request's
      method and its URL without the fragment.
    - The network is an oracle [net : Request -> option Response]; [None]
      is a rejected [fetch].
    - Asynchronous code is run in program order: an [await]ed call and a
      call whose promise is dropped ([cache.put] in the handlers) both take
      effect where they are written; the members of a [Promise.all] run in
      list order.
    - [cache.put] rejects, and stores nothing, unless the request is a
      GET over http(s) and the response's status is not 206;
      [cache.addAll] rejects, and stores nothing, unless every request is
      answered with a successful response that [put] accepts and no two
      requests have the same key.  Responses carry a status, a content
      type and a body, no [Vary] header.  Where a function sees the
      outcome of [put] ([cacheHeritageSite]) it is also stated over a
      store that rejects more writes (a quota, say).
    - The persistence helpers of the deferred queue are the placeholders
      of the source: the read gives an empty array, the removal and the
      clearing only report.
    - A JavaScript exception is the [Throw] result of the monad [M]; the
      world (caches, queues, trace) survives a throw, as it does in the
      worker. *)

From Stdlib Require Import String Ascii List Bool Arith NArith Lia.
Import ListNotations.
Local Open Scope string_scope.
Local Open Scope list_scope.

(** ** String primitives used by the classifier *)

Module JSString.

(** [s.startsWith(p)] *)
Fixpoint startsWith (s p : string) : bool :=
  match p, s with
  | EmptyString, _ => true
  | String _ _, EmptyString => false
  | String a p', String b s' => Ascii.eqb a b && startsWith s' p'
  end.

(** [s.includes(p)] *)
Fixpoint includes (s p : string) : bool :=
  startsWith s p ||
  match s with
  | EmptyString => false
  | String _ s' => includes s' p
  end.

(** [s.endsWith(p)] *)
Fixpoint endsWith (s p : string) : bool :=
  String.eqb s p ||
  match s with
  | EmptyString => false
  | String _ s' => endsWith s' p
  end.

End JSString.

(** ** Requests, responses, URLs *)

Record URL := mkURL {
  href : string;
  protocol : string;
  hostname : string;
  pathname : string
}.

Record Request := mkRequest {
  method : string;
  url : string;
  mode : string;
  body : option string
}.

Record Response := mkResponse {
  status : nat;
  contentType : string;
  text : string
}.

(** [response.ok]: the status is in the range 200-299. *)
Definition ok (r : Response) : bool :=
  Nat.leb 200 (status r) && Nat.leb (status r) 299.

(** What a rejected promise carries. *)
Inductive Error :=
| NetworkError
| TypeError
| InvalidStateError.

(** ** Cache storage *)

Definition Key : Type := string * string.

Definition key_eqb (a b : Key) : bool :=
  String.eqb (fst a) (fst b) && String.eqb (snd a) (snd b).

(** A URL without its fragment. *)
Fixpoint strip_fragment (s : string) : string :=
  match s with
  | EmptyString => EmptyString
  | String c s' =>
      if Ascii.eqb c "#"%char then EmptyString else String c (strip_fragment s')
  end.

(** What an entry is stored and looked up by: the Cache interface compares
    the method and the URL without its fragment. *)
Definition key_of (r : Request) : Key := (method r, strip_fragment (url r)).

Definition Cache : Type := list (Key * Response).
Definition CacheStorage : Type := list (string * Cache).

Module CacheAPI.

(** [cache.match(key)] *)
Fixpoint cache_match (k : Key) (c : Cache) : option Response :=
  match c with
  | [] => None
  | (k', r) :: c' => if key_eqb k k' then Some r else cache_match k c'
  end.

(** [cache.delete(key)] *)
Definition cache_delete (k : Key) (c : Cache) : Cache :=
  filter (fun e => negb (key_eqb k (fst e))) c.

(** [cache.put(key, response)]: overwrite by key, the new entry is the
    youngest one. *)
Definition cache_put (k : Key) (r : Response) (c : Cache) : Cache :=
  cache_delete k c ++ [(k, r)].

(** [cache.keys()] *)
Definition cache_keys (c : Cache) : list Key := map fst c.

(** [caches.has(name)] *)
Definition has (name : string) (cs : CacheStorage) : bool :=
  existsb (fun nc => String.eqb name (fst nc)) cs.

(** The cache called [name], if there is one. *)
Fixpoint lookup (name : string) (cs : CacheStorage) : option Cache :=
  match cs with
  | [] => None
  | (n, c) :: cs' => if String.eqb name n then Some c else lookup name cs'
  end.

(** [caches.open(name)]: creates the cache when it is not there. *)
Definition open (name : string) (cs : CacheStorage) : CacheStorage :=
  if has name cs then cs else cs ++ [(name, [])].

(** Apply [f] to the cache called [name]. *)
Fixpoint update (name : string) (f : Cache -> Cache) (cs : CacheStorage)
  : CacheStorage :=
  match cs with
  | [] => []
  | (n, c) :: cs' =>
      if String.eqb name n then (n, f c) :: cs'
      else (n, c) :: update name f cs'
  end.

(** [caches.match(key)]: the first hit, caches taken in creation order. *)
Fixpoint caches_match (k : Key) (cs : CacheStorage) : option Response :=
  match cs with
  | [] => None
  | (_, c) :: cs' =>
      match cache_match k c with
      | Some r => Some r
      | None => caches_match k cs'
      end
  end.

(** [caches.keys()] *)
Definition caches_keys (cs : CacheStorage) : list string := map fst cs.

(** [caches.delete(name)] *)
Definition caches_delete (name : string) (cs : CacheStorage) : CacheStorage :=
  filter (fun nc => negb (String.eqb name (fst nc))) cs.

(** Entries of the tier called [name]; none when the tier does not exist. *)
Definition tier (name : string) (cs : CacheStorage) : Cache :=
  match lookup name cs with
  | Some c => c
  | None => []
  end.

End CacheAPI.

(** ** The world and the monad of worker code *)

(** A queued deferred action: its identifier in the store and the JSON text
    [JSON.stringify] gives for it. *)
Record Item := mkItem {
  item_id : nat;
  item_json : string
}.

(** What the trace records. *)
Inductive Event :=
| EvFetch (r : Request)
| EvCacheRead (k : Key)
| EvCacheWrite (tierName : string) (k : Key) (r : Response)
| EvRemoveStored (storeName : string) (id : nat).

Record World := mkWorld {
  caches : CacheStorage;
  idb : list (string * list Item);
  trace : list Event
}.

Inductive Result (A : Type) :=
| Ok (a : A)
| Throw (e : Error).
Arguments Ok {A} a.
Arguments Throw {A} e.

Definition M (A : Type) : Type := World -> Result A * World.

Definition ret {A} (a : A) : M A := fun w => (Ok a, w).

Definition throw {A} (e : Error) : M A := fun w => (Throw e, w).

Definition bind {A B} (m : M A) (k : A -> M B) : M B :=
  fun w =>
    match m w with
    | (Ok a, w') => k a w'
    | (Throw e, w') => (Throw e, w')
    end.

(** [try { m } catch (error) { h error }] *)
Definition try_catch {A} (m : M A) (h : Error -> M A) : M A :=
  fun w =>
    match m w with
    | (Ok a, w') => (Ok a, w')
    | (Throw e, w') => h e w'
    end.

Declare Scope js_scope.
Delimit Scope js_scope with js.
Notation "x <- m ;; k" := (bind m (fun x => k))
  (at level 61, m at next level, right associativity) : js_scope.
Notation "m ;;; k" := (bind m (fun _ => k))
  (at level 61, right associativity) : js_scope.
Local Open Scope js_scope.

(** [for (const x of xs) { f x }] *)
Fixpoint for_of {A} (xs : list A) (f : A -> M unit) : M unit :=
  match xs with
  | [] => ret tt
  | x :: xs' => f x ;;; for_of xs' f
  end.

Definition log (e : Event) : M unit :=
  fun w => (Ok tt, mkWorld (caches w) (idb w) (trace w ++ [e])).

Definition modify_caches (f : CacheStorage -> CacheStorage) : M unit :=
  fun w => (Ok tt, mkWorld (f (caches w)) (idb w) (trace w)).

Definition get_caches : M CacheStorage :=
  fun w => (Ok (caches w), w).

(** ** The platform: network, URL resolution, storage estimate *)

(** [navigator.storage.estimate()]: the promise rejects, or it gives an
    estimate whose [usage] may be missing. *)
Inductive Estimate :=
| EstimateRejects
| EstimateOf (usage : option N).

Record Env := mkEnv {
  net : Request -> option Response;
  new_URL : string -> URL;
  storage_estimate : Estimate
}.

(** The request that [fetch(s)], [caches.match(s)] and [cache.put(s, _)]
    build from a string: a GET of the resolved URL. *)
Definition Request_of (env : Env) (s : string) : Request :=
  mkRequest "GET" (href (new_URL env s)) "cors" None.

Definition fetch (env : Env) (r : Request) : M Response :=
  log (EvFetch r) ;;;
  match net env r with
  | Some resp => ret resp
  | None => throw NetworkError
  end.

Definition caches_match (k : Key) : M (option Response) :=
  log (EvCacheRead k) ;;;
  cs <- get_caches ;;
  ret (CacheAPI.caches_match k cs).

Definition caches_open (name : string) : M string :=
  modify_caches (CacheAPI.open name) ;;; ret name.

Definition caches_keys : M (list string) :=
  cs <- get_caches ;; ret (CacheAPI.caches_keys cs).

Definition caches_delete (name : string) : M unit :=
  modify_caches (CacheAPI.caches_delete name).

(** The scheme of the URL is [http] or [https]. *)
Definition is_http (u : URL) : bool :=
  String.eqb (protocol u) "http:" || String.eqb (protocol u) "https:".

(** Whether [cache.put(request, response)] stores: the promise rejects with
    a [TypeError] unless the request is a GET over http(s) and the status
    of the response is not 206 (Partial Content).  A response with a
    [Vary: *] header, refused as well, is no value of [Response]. *)
Definition put_accepts (env : Env) (request : Request) (r : Response) : bool :=
  String.eqb (method request) "GET"
  && is_http (new_URL env (url request))
  && negb (Nat.eqb (status r) 206).

(** The write of an accepted entry. *)
Definition cache_store (cache : string) (k : Key) (r : Response) : M unit :=
  log (EvCacheWrite cache k r) ;;;
  modify_caches (CacheAPI.update cache (CacheAPI.cache_put k r)).

Definition cache_put (env : Env) (cache : string) (request : Request)
  (r : Response) : M unit :=
  if put_accepts env request r
  then cache_store cache (key_of request) r
  else throw TypeError.

(** A call whose promise is dropped: it takes effect, and its rejection
    reaches no [catch]. *)
Definition dropped {A} (m : M A) : M unit :=
  fun w => (Ok tt, snd (m w)).

Definition cache_keys (cache : string) : M (list Key) :=
  cs <- get_caches ;; ret (CacheAPI.cache_keys (CacheAPI.tier cache cs)).

Definition cache_delete (cache : string) (k : Key) : M unit :=
  modify_caches (CacheAPI.update cache (CacheAPI.cache_delete k)).

Definition estimate (env : Env) : M (option N) :=
  match storage_estimate env with
  | EstimateRejects => throw TypeError
  | EstimateOf u => ret u
  end.

(** [a || b] where [a] is a promise that was not awaited: an object is
    truthy whatever the promise settles to, so the value is [a] and [b] is
    never evaluated. *)
Definition promise_or {A} (a b : M A) : M A := a.

(** ** Constants of the worker *)

Definition VERSION : string := "v1.2.0".

Definition static_name (tag : string) : string :=
  String.append "bharatvrsh-static-" tag.
Definition dynamic_name (tag : string) : string :=
  String.append "bharatvrsh-dynamic-" tag.
Definition heritage_name (tag : string) : string :=
  String.append "bharatvrsh-heritage-" tag.

Definition STATIC_CACHE : string := Eval cbv in static_name VERSION.
Definition DYNAMIC_CACHE : string := Eval cbv in dynamic_name VERSION.
Definition HERITAGE_CACHE : string := Eval cbv in heritage_name VERSION.

Definition STATIC_ASSETS : list string := [
  "/";
  "/index.html";
  "/manifest.json";
  "/styles/main.css";
  "/styles/heritage.css";
  "/styles/ar-viewer.css";
  "/scripts/app.js";
  "/scripts/ar-viewer.js";
  "/scripts/heritage-sites.js";
  "/scripts/tours.js";
  "/scripts/utils.js";
  "/assets/logo.svg";
  "/assets/favicon.ico";
  "/assets/icons/icon-192x192.png";
  "/assets/icons/icon-512x512.png";
  "https://fonts.googleapis.com/css2?family=Inter:wght@300;400;500;600;700&family=Playfair+Display:wght@400;600;700&display=swap";
  "https://fonts.googleapis.com/icon?family=Material+Icons";
  "https://cdnjs.cloudflare.com/ajax/libs/three.js/r128/three.min.js"
].

Definition API_ENDPOINTS : list string := [
  "/api/heritage/sites";
  "/api/tours";
  "/api/guides"
].

Definition MAX_CACHE_SIZE : N := 100 * 1024 * 1024.

(** The document [handleNavigation] builds inline; a [Response] made
    without a status has status 200. *)
Definition offline_document : Response :=
  mkResponse 200 "text/html"
    "<!DOCTYPE html><html><head><title>Offline</title></head><body><h1>Offline</h1><p>Please check your internet connection.</p></body></html>".

(** [JSON.stringify] of an object whose fields are strings that need no
    escaping. *)
Definition json_quote (s : string) : string :=
  String (ascii_of_nat 34) (String.append s (String (ascii_of_nat 34) EmptyString)).

Fixpoint json_fields (o : list (string * string)) : string :=
  match o with
  | [] => EmptyString
  | [(k, v)] => String.append (json_quote k) (String.append ":" (json_quote v))
  | (k, v) :: o' =>
      String.append (json_quote k)
        (String.append ":" (String.append (json_quote v)
           (String.append "," (json_fields o'))))
  end.

Definition JSON_stringify (o : list (string * string)) : string :=
  String.append "{" (String.append (json_fields o) "}").

(** The answer [handleAPIRequest] builds when the network and the cache both
    fail. *)
Definition offline_api_response : Response :=
  mkResponse 503 "application/json"
    (JSON_stringify [("error", "Offline");
                     ("message", "This request is not available offline")]).

(** ** Request classifier *)

Definition isStaticAsset (u : URL) : bool :=
  existsb (fun asset => JSString.endsWith (pathname u) asset) STATIC_ASSETS
  || JSString.includes (pathname u) "/styles/"
  || JSString.includes (pathname u) "/scripts/"
  || JSString.includes (pathname u) "/assets/icons/"
  || String.eqb (hostname u) "fonts.googleapis.com"
  || String.eqb (hostname u) "fonts.gstatic.com"
  || String.eqb (hostname u) "cdnjs.cloudflare.com".

Definition isAPIRequest (u : URL) : bool :=
  JSString.startsWith (pathname u) "/api/"
  || existsb (fun endpoint => JSString.startsWith (pathname u) endpoint)
       API_ENDPOINTS.

Definition isHeritageContent (u : URL) : bool :=
  JSString.includes (pathname u) "/assets/images/"
  || JSString.includes (pathname u) "/assets/models/"
  || JSString.includes (pathname u) "/assets/audio/"
  || JSString.includes (pathname u) "/assets/videos/".

(** ** Fetch strategies

    A handler gives [Some response], or [None] for JavaScript's
    [undefined]. *)

Definition handleStaticAsset (env : Env) (request : Request)
  : M (option Response) :=
  try_catch
    (cacheResponse <- caches_match (key_of request) ;;
     match cacheResponse with
     | Some r => ret (Some r)
     | None =>
         networkResponse <- fetch env request ;;
         (if ok networkResponse then
            cache <- caches_open STATIC_CACHE ;;
            dropped (cache_put env cache request networkResponse)
          else ret tt) ;;;
         ret (Some networkResponse)
     end)
    (fun error =>
       cacheResponse <- caches_match (key_of request) ;;
       match cacheResponse with
       | Some r => ret (Some r)
       | None =>
           if String.eqb (mode request) "navigate"
           then caches_match (key_of (Request_of env "/offline.html"))
           else throw error
       end).

Definition handleAPIRequest (env : Env) (request : Request)
  : M (option Response) :=
  try_catch
    (networkResponse <- fetch env request ;;
     (if ok networkResponse && String.eqb (method request) "GET" then
        cache <- caches_open DYNAMIC_CACHE ;;
        dropped (cache_put env cache request networkResponse)
      else ret tt) ;;;
     ret (Some networkResponse))
    (fun error =>
       cacheResponse <- caches_match (key_of request) ;;
       match cacheResponse with
       | Some r => ret (Some r)
       | None => ret (Some offline_api_response)
       end).

Definition handleHeritageContent (env : Env) (request : Request)
  : M (option Response) :=
  try_catch
    (cacheResponse <- caches_match (key_of request) ;;
     match cacheResponse with
     | Some r => ret (Some r)
     | None =>
         networkResponse <- fetch env request ;;
         (if ok networkResponse then
            cache <- caches_open HERITAGE_CACHE ;;
            dropped (cache_put env cache request networkResponse)
          else ret tt) ;;;
         ret (Some networkResponse)
     end)
    (fun error =>
       cacheResponse <- caches_match (key_of request) ;;
       match cacheResponse with
       | Some r => ret (Some r)
       | None => throw error
       end).

Definition handleNavigation (env : Env) (request : Request)
  : M (option Response) :=
  try_catch
    (networkResponse <- fetch env request ;;
     ret (Some networkResponse))
    (fun error =>
       cacheResponse <- caches_match (key_of (Request_of env "/index.html")) ;;
       match cacheResponse with
       | Some r => ret (Some r)
       | None =>
           promise_or
             (caches_match (key_of (Request_of env "/offline.html")))
             (ret (Some offline_document))
       end).

Definition handleDefault (env : Env) (request : Request)
  : M (option Response) :=
  try_catch
    (networkResponse <- fetch env request ;;
     (if ok networkResponse then
        cache <- caches_open DYNAMIC_CACHE ;;
        dropped (cache_put env cache request networkResponse)
      else ret tt) ;;;
     ret (Some networkResponse))
    (fun error =>
       cacheResponse <- caches_match (key_of request) ;;
       match cacheResponse with
       | Some r => ret (Some r)
       | None => throw error
       end).

Definition handleFetchRequest (env : Env) (request : Request)
  : M (option Response) :=
  let u := new_URL env (url request) in
  if isStaticAsset u then handleStaticAsset env request
  else if isAPIRequest u then handleAPIRequest env request
  else if isHeritageContent u then handleHeritageContent env request
  else if String.eqb (mode request) "navigate" then handleNavigation env request
  else handleDefault env request.

(** What the fetch listener does with an event: it returns without calling
    [event.respondWith], and the browser handles the request as if there
    were no worker (it goes to the network); or it answers with the
    settlement of [handleFetchRequest]. *)
Inductive FetchOutcome :=
| NotIntercepted
| RespondWith (r : Result (option Response)).

Definition fetch_listener (env : Env) (request : Request)
  : World -> FetchOutcome * World :=
  fun w =>
    let u := new_URL env (url request) in
    if negb (String.eqb (method request) "GET") then (NotIntercepted, w)
    else if negb (JSString.startsWith (protocol u) "http") then (NotIntercepted, w)
    else
      let (r, w') := handleFetchRequest env request w in
      (RespondWith r, w').

(** ** Activation

    The clean-up of the [activate] listener, for a worker built with the
    tag [tag]; the source is the instance at [VERSION].  The deletions of
    the [Promise.all] run in the order of [caches.keys()];
    [clients.claim()] touches no cache and is left out. *)

Definition activate_at (tag : string) : M unit :=
  cacheNames <- caches_keys ;;
  for_of cacheNames (fun cacheName =>
    if negb (String.eqb cacheName (static_name tag))
       && negb (String.eqb cacheName (dynamic_name tag))
       && negb (String.eqb cacheName (heritage_name tag))
    then caches_delete cacheName
    else ret tt).

Definition activate : M unit := activate_at VERSION.

(** ** Cache size governor *)

(** [estimate.usage > MAX_CACHE_SIZE]; a missing [usage] is [undefined],
    and the comparison is false. *)
Definition usage_exceeds (usage : option N) : bool :=
  match usage with
  | Some u => N.ltb MAX_CACHE_SIZE u
  | None => false
  end.

(** [Math.floor(n * 0.2)].  The double nearest to 0.2 exceeds 0.2 by less
    than 2^-56, and an array has fewer than 2^32 elements: the product
    rounds to a double within 2^-23 of n/5, whose fractional part is one of
    0, .2, .4, .6, .8; its floor is the integer quotient of n by 5. *)
Definition floor_20_percent (n : nat) : nat := n / 5.

Definition manageCacheSize (env : Env) : M unit :=
  try_catch
    (usage <- estimate env ;;
     if usage_exceeds usage then
       dynamicCache <- caches_open DYNAMIC_CACHE ;;
       requests <- cache_keys dynamicCache ;;
       let deleteCount := floor_20_percent (length requests) in
       for_of (firstn deleteCount requests) (fun request =>
         cache_delete dynamicCache request)
     else ret tt)
    (fun error => ret tt).

(** ** Deferred action queue *)

(** The keyed local database behind the three helpers. *)
Record IndexedDB := mkIndexedDB {
  getStoredData : string -> M (list Item);
  removeStoredData : string -> nat -> M unit
}.

(** The helpers as the source has them: placeholders that read an empty
    store and only report the removal they would do. *)
Definition placeholder_db : IndexedDB := {|
  getStoredData := fun storeName => ret [];
  removeStoredData := fun storeName id => log (EvRemoveStored storeName id)
|}.


(** The helpers of the source with the array that [getStoredData] returns
    taken as a parameter; the source is [reading []]. *)
Definition reading (pending : list Item) : IndexedDB := {|
  getStoredData := fun storeName => ret pending;
  removeStoredData := removeStoredData placeholder_db
|}.

(** The request of [fetch(path, {method: 'POST', body: JSON.stringify(x)})]. *)
Definition post_request (env : Env) (path : string) (x : Item) : Request :=
  mkRequest "POST" (href (new_URL env path)) "cors" (Some (item_json x)).

Definition syncHeritageData (db : IndexedDB) (env : Env) : M unit :=
  try_catch
    (pendingData <- getStoredData db "heritage-updates" ;;
     for_of pendingData (fun data =>
       try_catch
         (_ <- fetch env (post_request env "/api/heritage/sync" data) ;;
          removeStoredData db "heritage-updates" (item_id data))
         (fun error => ret tt)))
    (fun error => ret tt).

Definition syncUserFeedback (db : IndexedDB) (env : Env) : M unit :=
  try_catch
    (pendingFeedback <- getStoredData db "pending-feedback" ;;
     for_of pendingFeedback (fun feedback =>
       try_catch
         (_ <- fetch env (post_request env "/api/feedback" feedback) ;;
          removeStoredData db "pending-feedback" (item_id feedback))
         (fun error => ret tt)))
    (fun error => ret tt).

(** ** Cache-bundle control message *)

Record SiteData := mkSiteData {
  site_id : string;
  imageUrl : option string;
  thumbnailUrl : option string;
  modelUrl : option string;
  audioUrls : option (list (option string))
}.

(** [xs.filter(Boolean)] on values that are strings, [null] or [undefined]:
    the non-empty strings remain. *)
Fixpoint filter_Boolean (xs : list (option string)) : list string :=
  match xs with
  | [] => []
  | Some s :: xs' =>
      if String.eqb s EmptyString then filter_Boolean xs'
      else s :: filter_Boolean xs'
  | None :: xs' => filter_Boolean xs'
  end.

(** [x || []] *)
Definition or_empty {A} (x : option (list A)) : list A :=
  match x with
  | Some l => l
  | None => []
  end.

(** [cache.put] on a cache that, besides, rejects the writes for the keys
    in [rejects] (a quota error, say). *)
Definition rejecting_put (rejects : Key -> bool) (env : Env)
  (cache : string) (request : Request) (r : Response) : M unit :=
  if rejects (key_of request) then throw TypeError
  else cache_put env cache request r.

(** [cacheHeritageSite], over the [put] of the cache it opens.  Here the
    promise of [put] is returned into the chain that ends in [.catch], so a
    rejection of [put] is a failure the function sees; the payload of the
    message may be missing, and reading a property of [undefined] throws. *)
Definition cacheHeritageSite_with
  (put : Env -> string -> Request -> Response -> M unit)
  (env : Env) (siteData : option SiteData) : M unit :=
  try_catch
    (cache <- caches_open HERITAGE_CACHE ;;
     urlsToCache <-
       match siteData with
       | None => throw TypeError
       | Some sd =>
           ret (filter_Boolean
                  ([imageUrl sd; thumbnailUrl sd; modelUrl sd]
                     ++ or_empty (audioUrls sd)))
       end ;;
     for_of urlsToCache (fun u =>
       try_catch
         (response <- fetch env (Request_of env u) ;;
          if ok response
          then put env cache (Request_of env u) response
          else ret tt)
         (fun error => ret tt)))
    (fun error => ret tt).

Definition cacheHeritageSite : Env -> option SiteData -> M unit :=
  cacheHeritageSite_with cache_put.

(** ** Vocabulary of the statements *)

(** The five strategies and the classification [handleFetchRequest] makes. *)
Inductive Strategy :=
| StaticAsset
| Api
| HeritageContent
| Navigation
| Default.

Definition classify (env : Env) (request : Request) : Strategy :=
  let u := new_URL env (url request) in
  if isStaticAsset u then StaticAsset
  else if isAPIRequest u then Api
  else if isHeritageContent u then HeritageContent
  else if String.eqb (mode request) "navigate" then Navigation
  else Default.

Definition handler_of (s : Strategy) : Env -> Request -> M (option Response) :=
  match s with
  | StaticAsset => handleStaticAsset
  | Api => handleAPIRequest
  | HeritageContent => handleHeritageContent
  | Navigation => handleNavigation
  | Default => handleDefault
  end.

(** Projections of a trace. *)
Definition fetches (t : list Event) : list Request :=
  flat_map (fun e => match e with EvFetch r => [r] | _ => [] end) t.

Definition cache_reads (t : list Event) : list Key :=
  flat_map (fun e => match e with EvCacheRead k => [k] | _ => [] end) t.

Definition cache_writes (t : list Event) : list (string * Key * Response) :=
  flat_map (fun e => match e with
                     | EvCacheWrite n k r => [(n, k, r)]
                     | _ => []
                     end) t.

Definition removals (t : list Event) : list (string * nat) :=
  flat_map (fun e => match e with
                     | EvRemoveStored n i => [(n, i)]
                     | _ => []
                     end) t.

(** The names a worker built with [tag] keeps on activation. *)
Definition is_current (tag name : string) : bool :=
  String.eqb name (static_name tag)
  || String.eqb name (dynamic_name tag)
  || String.eqb name (heritage_name tag).

(** Whether the activation loop, visiting the names [ns], keeps a cache: its
    name is current, or the loop does not visit it. *)
Definition survives (tag : string) (ns : list string) (nc : string * Cache)
  : bool :=
  is_current tag (fst nc) || negb (existsb (String.eqb (fst nc)) ns).


(** The URLs [cacheHeritageSite] keeps from a bundle. *)
Definition urlsToCache (sd : SiteData) : list string :=
  filter_Boolean ([imageUrl sd; thumbnailUrl sd; modelUrl sd]
                    ++ or_empty (audioUrls sd)).

(** Whether the answer [r] to the URL [u] of a bundle gets stored: it is
    successful, and the cache accepts the write. *)
Definition bundle_stores (rejects : Key -> bool) (env : Env) (u : string)
  (r : Response) : bool :=
  ok r
  && negb (rejects (key_of (Request_of env u)))
  && put_accepts env (Request_of env u) r.

(** The entries of a cache have distinct keys, in every cache. *)
Definition distinct_keys (cs : CacheStorage) : Prop :=
  Forall (fun nc => NoDup (CacheAPI.cache_keys (snd nc))) cs.

(** ** Concrete platforms and worlds for the examples *)

Module Demo.

Definition origin : string := "https://bharatvrsh.example".

(** [s] up to the first character that satisfies [p], and [s] from that
    character on. *)
Fixpoint before (p : ascii -> bool) (s : string) : string :=
  match s with
  | EmptyString => EmptyString
  | String c s' => if p c then EmptyString else String c (before p s')
  end.

Fixpoint from (p : ascii -> bool) (s : string) : string :=
  match s with
  | EmptyString => EmptyString
  | String c s' => if p c then s else from p s'
  end.

Definition delimiter (c : ascii) : bool :=
  Ascii.eqb c ":"%char || Ascii.eqb c "/"%char
  || Ascii.eqb c "?"%char || Ascii.eqb c "#"%char.

Definition ends_path (c : ascii) : bool :=
  Ascii.eqb c "?"%char || Ascii.eqb c "#"%char.

Definition ends_authority (c : ascii) : bool :=
  Ascii.eqb c "/"%char || ends_path c.

(** [new URL(s)] in a worker served from [origin], for the URLs of the
    examples: [s] is absolute ([scheme://authority/path?query#fragment])
    or a path from the root of [origin].  The pathname holds neither the
    query nor the fragment, the hostname no port. *)
Definition new_URL (s : string) : URL :=
  let absolute :=
    if JSString.startsWith (from delimiter s) "://" then s
    else if JSString.startsWith s "/" then String.append origin s
    else String.append origin (String.append "/" s) in
  let scheme := before delimiter absolute in
  let rest :=
    String.substring 3 (String.length absolute) (from delimiter absolute) in
  let authority := before ends_authority rest in
  let tail := from ends_authority rest in
  let path :=
    if String.eqb (before ends_path tail) EmptyString then "/"
    else before ends_path tail in
  mkURL
    (String.append scheme
       (String.append "://"
          (String.append authority
             (String.append path (from ends_path tail)))))
    (String.append scheme ":")
    (before (Ascii.eqb ":"%char) authority)
    path.

Definition MB : N := 1024 * 1024.

(** No connectivity. *)
Definition offline : Env :=
  mkEnv (fun _ => None) new_URL (EstimateOf (Some (10 * MB)%N)).


(** Every request is answered 200; the storage is over the ceiling. *)
Definition online : Env :=
  mkEnv (fun r => Some (mkResponse 200 "text/plain" (url r))) new_URL
    (EstimateOf (Some (150 * MB)%N)).

(** Only the feedback and sync posts whose item has an even identifier
    get through; a GET is answered 200 unless its URL mentions
    [missing], which is answered 404, or [down], which is rejected. *)
Definition flaky : Env :=
  mkEnv (fun r =>
           if String.eqb (method r) "POST" then
             match body r with
             | Some b => if JSString.startsWith b "even"
                         then Some (mkResponse 201 "application/json" b)
                         else None
             | None => None
             end
           else if JSString.includes (url r) "down" then None
           else if JSString.includes (url r) "missing"
                then Some (mkResponse 404 "text/plain" "not found")
           else Some (mkResponse 200 "text/plain" (url r)))
        new_URL (EstimateOf (Some (150 * MB)%N)).

Definition get (path mode : string) : Request :=
  mkRequest "GET" (String.append origin path) mode None.

Definition page (t : string) : Response := mkResponse 200 "text/html" t.

Definition empty : World := mkWorld [] [] [].

Definition entry (path t : string) : Key * Response :=
  (("GET", String.append origin path), page t).

(** The three tiers of the current build next to two of an older build. *)
Definition populated : World :=
  mkWorld
    [ ("bharatvrsh-static-v1.1.0", [entry "/index.html" "old shell"]);
      (STATIC_CACHE, [entry "/index.html" "shell";
                      entry "/styles/main.css" "css"]);
      ("bharatvrsh-dynamic-v1.1.0", [entry "/api/tours" "old tours"]);
      (DYNAMIC_CACHE, [entry "/api/tours" "t1"; entry "/api/guides" "g";
                       entry "/a" "a"; entry "/b" "b"; entry "/c" "c";
                       entry "/d" "d"; entry "/e" "e"; entry "/f" "f";
                       entry "/g" "g"; entry "/h" "h"; entry "/i" "i"]);
      (HERITAGE_CACHE, [entry "/assets/models/bateshwar_temple.glb" "glb"]) ]
    [ ("heritage-updates", [mkItem 1 "odd 1"; mkItem 2 "even 2";
                            mkItem 3 "odd 3"; mkItem 4 "even 4"]);
      ("pending-feedback", [mkItem 7 "odd 7"; mkItem 8 "even 8"]) ]
    [].

Definition site : SiteData :=
  mkSiteData "bateshwar"
    (Some "/assets/images/bateshwar-featured.jpg")
    None
    (Some "/assets/models/down.glb")
    (Some [Some "/assets/audio/missing.mp3"; None;
           Some "/assets/audio/bateshwar_tour_en.mp3"]).

End Demo.

(** * The rest of the worker *)

(** ** Installation *)

(** The URLs [cache.addAll(urls)] requests: it goes through the list, and
    stops with a [TypeError] at the first URL whose scheme is not
    http(s). *)
Fixpoint addAll_requested (env : Env) (urls : list string) : list string :=
  match urls with
  | [] => []
  | u :: urls' =>
      if is_http (new_URL env (url (Request_of env u)))
      then u :: addAll_requested env urls'
      else []
  end.

(** The entries [cache.addAll(urls)] has to store: one for every URL, or
    nothing when one request is rejected or gets an answer that is not
    successful or that [put] would refuse. *)
Fixpoint addAll_entries (env : Env) (urls : list string)
  : option (list (Key * Response)) :=
  match urls with
  | [] => Some []
  | u :: urls' =>
      match net env (Request_of env u) with
      | Some r =>
          if ok r && put_accepts env (Request_of env u) r
          then option_map (cons (key_of (Request_of env u), r))
                 (addAll_entries env urls')
          else None
      | None => None
      end
  end.

Fixpoint keys_distinct (ks : list Key) : bool :=
  match ks with
  | [] => true
  | k :: ks' => negb (existsb (key_eqb k) ks') && keys_distinct ks'
  end.

(** [cache.addAll(urls)]: the promise rejects with a [TypeError], and
    nothing is stored, unless every URL is answered with an entry to
    store; it rejects with an [InvalidStateError], and nothing is stored,
    when two of the requests have the same key; otherwise every answer is
    stored under its request. *)
Definition cache_addAll (env : Env) (cache : string) (urls : list string)
  : M unit :=
  for_of (addAll_requested env urls)
    (fun u => log (EvFetch (Request_of env u))) ;;;
  match addAll_entries env urls with
  | Some entries =>
      if keys_distinct (map fst entries)
      then for_of entries (fun e => cache_store cache (fst e) (snd e))
      else throw InvalidStateError
  | None => throw TypeError
  end.

(** The promise the [install] listener hands to [event.waitUntil];
    [skipWaiting()] touches no cache and is left out. *)
Definition install (env : Env) : M unit :=
  cache <- caches_open STATIC_CACHE ;;
  cache_addAll env cache STATIC_ASSETS.

(** ** Objects with string keys *)

(** The own properties of an object, by key.  [obj_set] defines the
    property [k], as an object literal and a spread do; an existing
    property keeps its place.  For keys that are not array indices the
    order of the list is the order of enumeration. *)
Fixpoint obj_set {V} (k : string) (v : V) (o : list (string * V))
  : list (string * V) :=
  match o with
  | [] => [(k, v)]
  | (k', v') :: o' =>
      if String.eqb k k' then (k', v) :: o' else (k', v') :: obj_set k v o'
  end.

(** The own property [k] of [o]; it is [o[k]] for every key that
    [Object.prototype] does not define, and [None] stands for
    [undefined]. *)
Fixpoint obj_get {V} (k : string) (o : list (string * V)) : option V :=
  match o with
  | [] => None
  | (k', v') :: o' => if String.eqb k k' then Some v' else obj_get k o'
  end.

(** [o[k] = v] on an object made by [{}]: the property is defined, except
    that the key [__proto__] goes to the setter of [Object.prototype],
    which ignores a value that is no object, so that no property is
    made. *)
Definition obj_assign {V} (k : string) (v : V) (o : list (string * V))
  : list (string * V) :=
  if String.eqb k "__proto__" then o else obj_set k v o.

(** [{...a, ...b}] *)
Definition spread {V} (a b : list (string * V)) : list (string * V) :=
  fold_left (fun o kv => obj_set (fst kv) (snd kv) o) b a.

(** ** Clearing and reporting *)

Definition clearAllCaches : M unit :=
  try_catch
    (cacheNames <- caches_keys ;;
     for_of cacheNames (fun cacheName => caches_delete cacheName))
    (fun error => ret tt).

(** The loop of [getCacheStatus], with the object it fills. *)
Fixpoint status_loop (cacheNames : list string) (status : list (string * nat))
  : M (list (string * nat)) :=
  match cacheNames with
  | [] => ret status
  | cacheName :: rest =>
      cache <- caches_open cacheName ;;
      keys <- cache_keys cache ;;
      status_loop rest (obj_assign cacheName (length keys) status)
  end.

Definition getCacheStatus : M (list (string * nat)) :=
  try_catch
    (cacheNames <- caches_keys ;;
     status_loop cacheNames [])
    (fun error => ret []).

(** ** Control messages *)

Record MessageData := mkMessageData {
  msg_type : string;
  msg_payload : option SiteData
}.

(** What a message makes the worker do besides its effect on the world. *)
Inductive MessageOutcome :=
| NoReply
| PostedToPort (status : list (string * nat))
| SkipWaiting.

(** The [message] listener; [data] is [event.data] and [ports] the length
    of [event.ports].  Destructuring a missing [event.data] throws.  The
    status is posted from a [then] callback: with no port the callback
    throws there, and nothing is posted. *)
Definition message_listener (env : Env) (data : option MessageData)
  (ports : nat) : M MessageOutcome :=
  match data with
  | None => throw TypeError
  | Some d =>
      if String.eqb (msg_type d) "CACHE_HERITAGE_SITE" then
        cacheHeritageSite env (msg_payload d) ;;; ret NoReply
      else if String.eqb (msg_type d) "CLEAR_CACHE" then
        clearAllCaches ;;; ret NoReply
      else if String.eqb (msg_type d) "GET_CACHE_STATUS" then
        status <- getCacheStatus ;;
        ret (if Nat.ltb 0 ports then PostedToPort status else NoReply)
      else if String.eqb (msg_type d) "SKIP_WAITING" then
        ret SkipWaiting
      else ret NoReply
  end.

(** ** Analytics flush and the sync listener *)

(** [JSON.stringify({ events: items })] *)
Fixpoint json_items (items : list Item) : string :=
  match items with
  | [] => EmptyString
  | [x] => item_json x
  | x :: items' =>
      String.append (item_json x) (String.append "," (json_items items'))
  end.

Definition JSON_stringify_events (items : list Item) : string :=
  String.append "{"
    (String.append (json_quote "events")
       (String.append ":[" (String.append (json_items items) "]}"))).

Definition events_request (env : Env) (items : list Item) : Request :=
  mkRequest "POST" (href (new_URL env "/api/analytics/events")) "cors"
    (Some (JSON_stringify_events items)).

(** [clearStoredData] as the source has it: it only reports what it would
    clear. *)
Definition placeholder_clear (storeName : string) : M unit := ret tt.

Definition syncAnalytics (db : IndexedDB) (clearStoredData : string -> M unit)
  (env : Env) : M unit :=
  try_catch
    (pendingAnalytics <- getStoredData db "pending-analytics" ;;
     if Nat.ltb 0 (length pendingAnalytics) then
       try_catch
         (_ <- fetch env (events_request env pendingAnalytics) ;;
          clearStoredData "pending-analytics")
         (fun error => ret tt)
     else ret tt)
    (fun error => ret tt).

(** The [sync] listener: three tests of the tag, one after the other. *)
Definition sync_listener (db : IndexedDB) (clearStoredData : string -> M unit)
  (env : Env) (tag : string) : M unit :=
  (if String.eqb tag "heritage-data-sync"
   then syncHeritageData db env else ret tt) ;;;
  (if String.eqb tag "user-feedback-sync"
   then syncUserFeedback db env else ret tt) ;;;
  (if String.eqb tag "analytics-sync"
   then syncAnalytics db clearStoredData env else ret tt).

(** ** Notifications *)

Module Push.

Record Action := mkAction {
  action : string;
  title : string;
  action_icon : option string
}.

Record Options := mkOptions {
  body : string;
  icon : string;
  badge : string;
  tag : string;
  data : list (string * string);
  actions : list Action
}.

(** What [event.data] of a push holds: nothing; text that [json()] cannot
    parse, or that parses to [null]; or a value of which the listener reads
    [body] and [data]. *)
Inductive Data :=
| NoData
| Malformed
| Payload (payload_body : option string)
          (payload_data : option (list (string * string))).

Definition default_options : Options :=
  mkOptions "New heritage content available!"
    "/assets/icons/icon-192x192.png"
    "/assets/icons/badge-72x72.png"
    "heritage-update"
    [("url", "/#heritage-sites")]
    [mkAction "explore" "Explore Now" (Some "/assets/icons/explore-icon.png");
     mkAction "dismiss" "Dismiss" None].

(** [x || y] on a string that may be missing: a missing or empty string is
    falsy. *)
Definition or_string (x : option string) (y : string) : string :=
  match x with
  | Some s => if String.eqb s EmptyString then y else s
  | None => y
  end.

(** The title and the options the [push] listener shows. *)
Definition push_listener (d : Data) : string * Options :=
  let options := default_options in
  ("BharatVRsh",
   match d with
   | NoData => options
   | Malformed => options
   | Payload b dt =>
       mkOptions (or_string b (body options)) (icon options) (badge options)
         (tag options) (spread (data options) (or_empty dt)) (actions options)
   end).

(** What a click does: the notification is closed, and a window may be
    opened. *)
Record Click := mkClick {
  closed : bool;
  opened : option string
}.

(** The [notificationclick] listener, on the action clicked (empty for a
    click on the notification itself) and the notification's data. *)
Definition notificationclick (act : string) (dt : list (string * string))
  : Click :=
  if String.eqb act "explore" || String.eqb act EmptyString
  then mkClick true (Some (or_string (obj_get "url" dt) "/"))
  else mkClick true None.

End Push.

(** * Properties *)

(** ** The cache store *)

Lemma key_eqb_eq (a b : Key) : key_eqb a b = true <-> a = b.
Proof.
  destruct a as [m1 u1], b as [m2 u2]; unfold key_eqb; cbn.
  rewrite andb_true_iff, !String.eqb_eq.
  split; [intros [-> ->]; reflexivity | intros H; inversion H; auto].
Qed.

Lemma key_eqb_refl (a : Key) : key_eqb a a = true.
Proof. apply key_eqb_eq; reflexivity. Qed.

Lemma key_eqb_neq (a b : Key) : key_eqb a b = false <-> a <> b.
Proof.
  rewrite <- key_eqb_eq. destruct (key_eqb a b); split; congruence.
Qed.

Lemma key_eqb_sym (a b : Key) : key_eqb a b = key_eqb b a.
Proof.
  destruct (key_eqb b a) eqn:E.
  - apply key_eqb_eq in E; subst; apply key_eqb_refl.
  - apply key_eqb_neq; apply key_eqb_neq in E; congruence.
Qed.

Module CacheFacts.
Import CacheAPI.

Lemma cache_match_app k c1 c2 :
  cache_match k (c1 ++ c2) =
  match cache_match k c1 with
  | Some r => Some r
  | None => cache_match k c2
  end.
Proof.
  induction c1 as [|[k' r'] c1 IH]; cbn; [reflexivity|].
  destruct (key_eqb k k'); auto.
Qed.

Lemma cache_match_delete_same k c : cache_match k (cache_delete k c) = None.
Proof.
  unfold cache_delete.
  induction c as [|[k' r'] c IH]; cbn; [reflexivity|].
  destruct (key_eqb k k') eqn:E; cbn; [exact IH|].
  rewrite E; exact IH.
Qed.

Lemma cache_match_delete_other k k' c :
  k' <> k -> cache_match k' (cache_delete k c) = cache_match k' c.
Proof.
  intros Hne. unfold cache_delete.
  induction c as [|[k0 r0] c IH]; cbn; [reflexivity|].
  destruct (key_eqb k k0) eqn:E; cbn.
  - apply key_eqb_eq in E; subst k0.
    apply key_eqb_neq in Hne; rewrite Hne; exact IH.
  - destruct (key_eqb k' k0); auto.
Qed.

Lemma cache_match_put_same k r c : cache_match k (cache_put k r c) = Some r.
Proof.
  unfold cache_put. rewrite cache_match_app, cache_match_delete_same.
  cbn. rewrite key_eqb_refl. reflexivity.
Qed.

Lemma cache_match_put_other k k' r c :
  k' <> k -> cache_match k' (cache_put k r c) = cache_match k' c.
Proof.
  intros Hne. unfold cache_put.
  rewrite cache_match_app, cache_match_delete_other by exact Hne.
  destruct (cache_match k' c); [reflexivity|].
  cbn. apply key_eqb_neq in Hne; rewrite Hne. reflexivity.
Qed.

Lemma has_lookup name cs :
  has name cs = match lookup name cs with Some _ => true | None => false end.
Proof.
  unfold has. induction cs as [|[n c] cs IH]; cbn; [reflexivity|].
  destruct (String.eqb name n); cbn; auto.
Qed.

Lemma lookup_app name cs1 cs2 :
  lookup name (cs1 ++ cs2) =
  match lookup name cs1 with
  | Some c => Some c
  | None => lookup name cs2
  end.
Proof.
  induction cs1 as [|[n c] cs1 IH]; cbn; [reflexivity|].
  destruct (String.eqb name n); auto.
Qed.

Lemma has_open name cs : has name (open name cs) = true.
Proof.
  unfold open. destruct (has name cs) eqn:E; [exact E|].
  rewrite has_lookup, lookup_app. rewrite has_lookup in E.
  destruct (lookup name cs); [discriminate|].
  cbn. rewrite String.eqb_refl. reflexivity.
Qed.

Lemma tier_open name cs : tier name (open name cs) = tier name cs.
Proof.
  unfold tier, open. destruct (has name cs) eqn:E; [reflexivity|].
  rewrite lookup_app. rewrite has_lookup in E.
  destruct (lookup name cs); [discriminate|].
  cbn. rewrite String.eqb_refl. reflexivity.
Qed.

Lemma lookup_open_other name name' cs :
  name' <> name -> lookup name' (open name cs) = lookup name' cs.
Proof.
  intros Hne. unfold open. destruct (has name cs); [reflexivity|].
  rewrite lookup_app. destruct (lookup name' cs); [reflexivity|].
  cbn. apply String.eqb_neq in Hne; rewrite Hne. reflexivity.
Qed.

Lemma lookup_update_same name f cs :
  lookup name (update name f cs) = option_map f (lookup name cs).
Proof.
  induction cs as [|[n c] cs IH]; cbn; [reflexivity|].
  destruct (String.eqb name n) eqn:E; cbn; rewrite E; auto.
Qed.

Lemma lookup_update_other name name' f cs :
  name' <> name -> lookup name' (update name f cs) = lookup name' cs.
Proof.
  intros Hne.
  induction cs as [|[n c] cs IH]; cbn; [reflexivity|].
  destruct (String.eqb name n) eqn:E; cbn.
  - apply String.eqb_eq in E; subst n.
    apply String.eqb_neq in Hne; rewrite Hne. reflexivity.
  - destruct (String.eqb name' n); auto.
Qed.

Lemma tier_update_same name f cs :
  has name cs = true -> tier name (update name f cs) = f (tier name cs).
Proof.
  intros H. unfold tier. rewrite lookup_update_same.
  rewrite has_lookup in H. destruct (lookup name cs); [reflexivity|discriminate].
Qed.

Lemma has_update name name' f cs :
  has name' (update name f cs) = has name' cs.
Proof.
  rewrite !has_lookup.
  destruct (String.eqb name' name) eqn:E.
  - apply String.eqb_eq in E; subst.
    rewrite lookup_update_same. destruct (lookup name cs); reflexivity.
  - apply String.eqb_neq in E. rewrite lookup_update_other by exact E.
    reflexivity.
Qed.

Lemma update_absent name f cs : has name cs = false -> update name f cs = cs.
Proof.
  unfold has. induction cs as [|[n c] cs IH]; cbn; [reflexivity|].
  destruct (String.eqb name n); cbn; [discriminate|].
  intros H; rewrite IH by exact H; reflexivity.
Qed.

(** Overwrite-by-key keeps the keys of a cache distinct. *)
Lemma cache_delete_keys k c :
  cache_keys (cache_delete k c) =
  filter (fun k' => negb (key_eqb k k')) (cache_keys c).
Proof.
  unfold cache_keys, cache_delete.
  induction c as [|[k' r'] c IH]; cbn; [reflexivity|].
  destruct (key_eqb k k'); cbn; rewrite IH; reflexivity.
Qed.

Lemma NoDup_filter {A} (p : A -> bool) l : NoDup l -> NoDup (filter p l).
Proof.
  induction 1 as [|x l Hx Hl IH]; cbn; [constructor|].
  destruct (p x); [constructor; auto|exact IH].
  rewrite filter_In; tauto.
Qed.

Lemma cache_delete_NoDup k c :
  NoDup (cache_keys c) -> NoDup (cache_keys (cache_delete k c)).
Proof. rewrite cache_delete_keys. apply NoDup_filter. Qed.

Lemma cache_put_NoDup k r c :
  NoDup (cache_keys c) -> NoDup (cache_keys (cache_put k r c)).
Proof.
  intros H. unfold cache_put, cache_keys. rewrite map_app. cbn.
  fold (cache_keys (cache_delete k c)).
  rewrite cache_delete_keys.
  assert (Hn : NoDup (filter (fun k' => negb (key_eqb k k')) (cache_keys c)))
    by (apply NoDup_filter; exact H).
  assert (Hk : ~ In k (filter (fun k' => negb (key_eqb k k')) (cache_keys c))).
  { rewrite filter_In. intros [_ Hf]. rewrite key_eqb_refl in Hf. discriminate. }
  revert Hn Hk. generalize (filter (fun k' => negb (key_eqb k k')) (cache_keys c)).
  induction l as [|x l IH]; cbn; intros Hn Hk.
  - constructor; [intros []|constructor].
  - inversion Hn; subst. constructor.
    + rewrite in_app_iff. cbn. intros [Hi|[He|[]]]; [contradiction|].
      apply Hk; left; auto.
    + apply IH; auto.
Qed.

End CacheFacts.

(** ** Running worker code *)

Ltac run_js :=
  cbv [handleStaticAsset handleAPIRequest handleHeritageContent
       handleNavigation handleDefault promise_or try_catch bind fetch
       caches_match caches_open cache_put cache_store dropped cache_keys
       cache_delete caches_keys caches_delete estimate get_caches
       modify_caches log ret throw];
  cbn [fst snd caches idb trace].

Lemma handleFetchRequest_classify env request :
  handleFetchRequest env request = handler_of (classify env request) env request.
Proof.
  unfold handleFetchRequest, classify.
  destruct (isStaticAsset _); [reflexivity|].
  destruct (isAPIRequest _); [reflexivity|].
  destruct (isHeritageContent _); [reflexivity|].
  destruct (String.eqb _ _); reflexivity.
Qed.

(** When the network fails, [handleNavigation] answers with what
    [caches.match] finds for the shell, else with what it finds for
    [/offline.html]; the inline document is never reached. *)
Lemma handleNavigation_network_failure env request w :
  net env request = None ->
  fst (handleNavigation env request w) =
  Ok (match CacheAPI.caches_match (key_of (Request_of env "/index.html")) (caches w) with
      | Some r => Some r
      | None => CacheAPI.caches_match (key_of (Request_of env "/offline.html")) (caches w)
      end).
Proof.
  intros Hnet. run_js. rewrite Hnet. cbn.
  destruct (CacheAPI.caches_match _ (caches w)); reflexivity.
Qed.

(** C1, at the failing input: a navigation to [/tours/42], classified as a
    navigation, with the network down and nothing cached.  The listener
    answers with [undefined] and not with the inline offline document. *)
Theorem navigation_offline_without_shell_is_undefined :
  let request := Demo.get "/tours/42" "navigate" in
  classify Demo.offline request = Navigation
  /\ net Demo.offline request = None
  /\ fst (handleNavigation Demo.offline request Demo.empty) = Ok None
  /\ fst (fetch_listener Demo.offline request Demo.empty) = RespondWith (Ok None)
  /\ fst (handleNavigation Demo.offline request Demo.empty)
     <> Ok (Some offline_document).
Proof.
  cbv zeta. repeat split; try reflexivity. discriminate.
Qed.

(** C7: a request whose method is not GET leaves the listener before any
    handler runs: [respondWith] is not called, so the browser sends the
    request to the network itself, and the world (every cache tier, the
    trace of cache reads and writes) is as it was. *)
Theorem fetch_listener_non_GET env request w :
  method request <> "GET" ->
  fetch_listener env request w = (NotIntercepted, w).
Proof.
  intros H. unfold fetch_listener.
  apply String.eqb_neq in H. rewrite H. reflexivity.
Qed.

Lemma fetch_listener_non_GET_witness :
  let request :=
    mkRequest "POST" "https://bharatvrsh.example/api/feedback" "cors"
      (Some "even 8") in
  method request <> "GET"
  /\ fetch_listener Demo.online request Demo.populated
     = (NotIntercepted, Demo.populated).
Proof.
  cbv zeta.
  assert (H : method (mkRequest "POST" "https://bharatvrsh.example/api/feedback"
                        "cors" (Some "even 8")) <> "GET")
    by (cbn; discriminate).
  split; [exact H | exact (fetch_listener_non_GET Demo.online _ Demo.populated H)].
Defined.

(** ** The fetch strategies *)

Lemma cache_writes_app t1 t2 :
  cache_writes (t1 ++ t2) = cache_writes t1 ++ cache_writes t2.
Proof. unfold cache_writes. apply flat_map_app. Qed.

Lemma fetches_app t1 t2 : fetches (t1 ++ t2) = fetches t1 ++ fetches t2.
Proof. unfold fetches. apply flat_map_app. Qed.

(** C2: whatever strategy handles a request, every cache write it makes
    stores the network's response to that request, under the request's
    key, and that response has a successful status; and the cache storage
    is left as it was unless the network gave a successful response.  A
    response that is not successful is stored in no tier. *)
Theorem strategies_store_only_successful_responses
  (s : Strategy) (env : Env) (request : Request) (w : World) :
  let w' := snd (handler_of s env request w) in
  (exists t,
      trace w' = trace w ++ t
      /\ forall n k r, In (n, k, r) (cache_writes t) ->
           ok r = true /\ net env request = Some r /\ k = key_of request)
  /\ (caches w' = caches w
      \/ exists r, net env request = Some r /\ ok r = true)
  /\ (forall r, net env request = Some r -> ok r = false ->
        caches w' = caches w).
Proof.
  cbv zeta.
  destruct s; cbn [handler_of]; run_js;
    repeat match goal with
    | |- context [CacheAPI.caches_match ?k ?c] =>
        destruct (CacheAPI.caches_match k c); cbn [fst snd caches idb trace]
    | |- context [match net ?e ?r with _ => _ end] =>
        destruct (net e r) as [resp|] eqn:Hnet; cbn [fst snd caches idb trace]
    | |- context [ok ?r] =>
        destruct (ok r) eqn:Hok; cbn [fst snd caches idb trace andb]
    | |- context [String.eqb ?a ?b] =>
        destruct (String.eqb a b); cbn [fst snd caches idb trace andb]
    | |- context [put_accepts ?e ?q ?r] =>
        destruct (put_accepts e q r); cbn [fst snd caches idb trace andb]
    end;
    (split; [eexists; split;
              [repeat rewrite <- app_assoc; reflexivity|
               cbn; intros ? ? ? Hin;
               repeat match goal with
                 | H : _ \/ _ |- _ => destruct H
                 | H : False |- _ => destruct H
                 | H : (_, _, _) = (_, _, _) |- _ => inversion H; subst; clear H
                 end; auto]
           | split; [first [left; reflexivity | right; eexists; split; eauto]
                    | intros ? Hr Hf; first [reflexivity | congruence]]]).
Qed.

Lemma fetches_snoc_fetch t r : fetches (t ++ [EvFetch r]) = fetches t ++ [r].
Proof. rewrite fetches_app. reflexivity. Qed.

Lemma fetches_snoc_read t k : fetches (t ++ [EvCacheRead k]) = fetches t.
Proof. rewrite fetches_app. cbn. apply app_nil_r. Qed.

Lemma fetches_snoc_write t n k r : fetches (t ++ [EvCacheWrite n k r]) = fetches t.
Proof. rewrite fetches_app. cbn. apply app_nil_r. Qed.

Lemma fetches_snoc_remove t n i : fetches (t ++ [EvRemoveStored n i]) = fetches t.
Proof. rewrite fetches_app. cbn. apply app_nil_r. Qed.

Create Rewrite HintDb trace_db.
#[local] Hint Rewrite fetches_snoc_fetch fetches_snoc_read fetches_snoc_write
  fetches_snoc_remove : trace_db.


(** Opening a tier and putting an entry in it: the tier gets the entry, the
    other tiers keep theirs. *)
Lemma put_in_opened_tier name k r cs :
  let cs' := CacheAPI.update name (CacheAPI.cache_put k r) (CacheAPI.open name cs) in
  CacheAPI.tier name cs' = CacheAPI.cache_put k r (CacheAPI.tier name cs)
  /\ CacheAPI.cache_match k (CacheAPI.tier name cs') = Some r
  /\ forall name', name' <> name ->
       CacheAPI.lookup name' cs' = CacheAPI.lookup name' cs.
Proof.
  cbv zeta.
  assert (Ht : CacheAPI.tier name
                 (CacheAPI.update name (CacheAPI.cache_put k r) (CacheAPI.open name cs))
               = CacheAPI.cache_put k r (CacheAPI.tier name cs)).
  { rewrite CacheFacts.tier_update_same by apply CacheFacts.has_open.
    rewrite CacheFacts.tier_open. reflexivity. }
  split; [exact Ht|]. split.
  - rewrite Ht. apply CacheFacts.cache_match_put_same.
  - intros name' Hne.
    rewrite CacheFacts.lookup_update_other by exact Hne.
    apply CacheFacts.lookup_open_other; exact Hne.
Qed.


(** A tier that was opened and got no entry is the tier it was. *)
Lemma opened_tier name cs :
  CacheAPI.tier name (CacheAPI.open name cs) = CacheAPI.tier name cs
  /\ forall name', name' <> name ->
       CacheAPI.lookup name' (CacheAPI.open name cs) = CacheAPI.lookup name' cs.
Proof.
  split; [apply CacheFacts.tier_open|].
  intros name' Hne. apply CacheFacts.lookup_open_other; exact Hne.
Qed.






(** ** The cache size governor *)

Section Eviction.

Lemma cache_delete_absent k c :
  ~ In k (CacheAPI.cache_keys c) -> CacheAPI.cache_delete k c = c.
Proof.
  unfold CacheAPI.cache_delete, CacheAPI.cache_keys.
  induction c as [|[k' r'] c IH]; cbn; intros Hn; [reflexivity|].
  destruct (key_eqb k k') eqn:E.
  - apply key_eqb_eq in E. exfalso; apply Hn; left; auto.
  - cbn. rewrite IH; [reflexivity|]. intros Hin; apply Hn; right; exact Hin.
Qed.

(** Deleting the first [d] keys of a cache, one after the other, leaves
    the entries after the first [d]. *)
Lemma delete_oldest d : forall c,
  NoDup (CacheAPI.cache_keys c) ->
  fold_left (fun c' k => CacheAPI.cache_delete k c')
    (firstn d (CacheAPI.cache_keys c)) c
  = skipn d c.
Proof.
  induction d as [|d IH]; intros c Hnd; [reflexivity|].
  destruct c as [|[k r] c]; [reflexivity|].
  cbn [CacheAPI.cache_keys map fst firstn fold_left skipn] in *.
  inversion Hnd as [|? ? Hk Hc]; subst.
  unfold CacheAPI.cache_delete at 2. cbn [filter fst].
  rewrite key_eqb_refl. cbn [negb].
  fold (CacheAPI.cache_delete k c). rewrite cache_delete_absent by exact Hk.
  apply IH; exact Hc.
Qed.

(** The loop of deletions, as one update of the storage. *)
Lemma for_of_cache_delete name ks : forall w,
  for_of ks (fun k => cache_delete name k) w
  = (Ok tt,
     mkWorld
       (fold_left (fun cs k => CacheAPI.update name (CacheAPI.cache_delete k) cs)
          ks (caches w))
       (idb w) (trace w)).
Proof.
  induction ks as [|k ks IH]; intros w; cbn [for_of fold_left].
  - destruct w; reflexivity.
  - unfold bind at 1. unfold cache_delete at 1, modify_caches at 1.
    rewrite IH. reflexivity.
Qed.

Lemma tier_fold_delete name ks : forall cs,
  CacheAPI.has name cs = true ->
  CacheAPI.tier name (fold_left (fun cs' k => CacheAPI.update name (CacheAPI.cache_delete k) cs') ks cs)
  = fold_left (fun c k => CacheAPI.cache_delete k c) ks (CacheAPI.tier name cs).
Proof.
  induction ks as [|k ks IH]; intros cs Hhas; cbn [fold_left]; [reflexivity|].
  rewrite IH by (rewrite CacheFacts.has_update; exact Hhas).
  rewrite CacheFacts.tier_update_same by exact Hhas. reflexivity.
Qed.

Lemma lookup_fold_delete name name' ks : forall cs,
  name' <> name ->
  CacheAPI.lookup name' (fold_left (fun cs' k => CacheAPI.update name (CacheAPI.cache_delete k) cs') ks cs)
  = CacheAPI.lookup name' cs.
Proof.
  induction ks as [|k ks IH]; intros cs Hne; cbn [fold_left]; [reflexivity|].
  rewrite IH by exact Hne. apply CacheFacts.lookup_update_other; exact Hne.
Qed.

End Eviction.

Lemma floor_20_percent_spec n :
  5 * floor_20_percent n <= n < 5 * floor_20_percent n + 5.
Proof.
  unfold floor_20_percent.
  pose proof (Nat.div_mod_eq n 5) as Hd.
  pose proof (Nat.mod_upper_bound n 5) as Hm.
  lia.
Qed.

(** What a run of the governor does to the world. *)
Lemma manageCacheSize_run env w :
  manageCacheSize env w =
  (Ok tt,
   match storage_estimate env with
   | EstimateOf usage =>
       if usage_exceeds usage then
         mkWorld
           (fold_left
              (fun cs k => CacheAPI.update DYNAMIC_CACHE (CacheAPI.cache_delete k) cs)
              (firstn
                 (floor_20_percent
                    (length (CacheAPI.tier DYNAMIC_CACHE (caches w))))
                 (CacheAPI.cache_keys (CacheAPI.tier DYNAMIC_CACHE (caches w))))
              (CacheAPI.open DYNAMIC_CACHE (caches w)))
           (idb w) (trace w)
       else w
   | EstimateRejects => w
   end).
Proof.
  unfold manageCacheSize, try_catch, estimate.
  destruct (storage_estimate env) as [|usage];
    [reflexivity|].
  unfold bind at 1. unfold ret at 1.
  destruct (usage_exceeds usage); [|reflexivity].
  unfold bind at 1, caches_open at 1, bind at 1, modify_caches at 1, ret at 1.
  unfold bind at 1, cache_keys at 1, bind at 1, get_caches at 1, ret at 1.
  cbn [caches idb trace].
  rewrite for_of_cache_delete. cbn [caches idb trace].
  rewrite CacheFacts.tier_open.
  unfold CacheAPI.cache_keys at 1. rewrite length_map. reflexivity.
Qed.

(** C5: a run of the governor, on a storage whose dynamic tier has distinct
    keys.  When the usage is above the ceiling, the dynamic tier loses
    its first [floor (0.2 * n)] entries in insertion order, [n] being its
    number of entries before, and keeps the others in order; when the
    usage is at or below the ceiling, the storage is unchanged. *)
Theorem governor_evicts_oldest_fifth env w usage :
  NoDup (CacheAPI.cache_keys (CacheAPI.tier DYNAMIC_CACHE (caches w))) ->
  storage_estimate env = EstimateOf (Some usage) ->
  let w' := snd (manageCacheSize env w) in
  let before := CacheAPI.tier DYNAMIC_CACHE (caches w) in
  let after := CacheAPI.tier DYNAMIC_CACHE (caches w') in
  let n := length before in
  fst (manageCacheSize env w) = Ok tt
  /\ ((MAX_CACHE_SIZE < usage)%N ->
      after = skipn (floor_20_percent n) before
      /\ before = firstn (floor_20_percent n) before ++ after
      /\ length after = n - floor_20_percent n
      /\ 5 * floor_20_percent n <= n < 5 * floor_20_percent n + 5)
  /\ ((usage <= MAX_CACHE_SIZE)%N -> w' = w).
Proof.
  intros Hnd Hest. cbv zeta.
  rewrite manageCacheSize_run, Hest. cbn [fst snd usage_exceeds].
  split; [reflexivity|]. split.
  - intros Hgt. apply N.ltb_lt in Hgt. rewrite Hgt. cbn [caches].
    rewrite tier_fold_delete by apply CacheFacts.has_open.
    rewrite CacheFacts.tier_open.
    rewrite delete_oldest by exact Hnd.
    split; [reflexivity|].
    split; [symmetry; apply firstn_skipn|].
    split; [apply length_skipn | apply floor_20_percent_spec].
  - intros Hle. apply N.ltb_ge in Hle. rewrite Hle. reflexivity.
Qed.

Lemma governor_evicts_oldest_fifth_witness :
  NoDup (CacheAPI.cache_keys (CacheAPI.tier DYNAMIC_CACHE (caches Demo.populated)))
  /\ storage_estimate Demo.online = EstimateOf (Some (150 * Demo.MB)%N)
  /\ length (CacheAPI.tier DYNAMIC_CACHE (caches Demo.populated)) = 11
  /\ CacheAPI.tier DYNAMIC_CACHE
       (caches (snd (manageCacheSize Demo.online Demo.populated)))
     = skipn 2 (CacheAPI.tier DYNAMIC_CACHE (caches Demo.populated)).
Proof.
  assert (Hnd : NoDup (CacheAPI.cache_keys
                         (CacheAPI.tier DYNAMIC_CACHE (caches Demo.populated)))).
  { cbn. repeat (constructor; [cbn; intuition discriminate|]). constructor. }
  split; [exact Hnd|]. split; [reflexivity|]. split; [reflexivity|].
  destruct (governor_evicts_oldest_fifth Demo.online Demo.populated
              (150 * Demo.MB)%N Hnd eq_refl) as [_ [Hgt _]].
  destruct (Hgt eq_refl) as [Hafter _].
  exact Hafter.
Defined.

(** C6: a run of the governor leaves the static tier and the heritage tier
    as they were, and so every cache whose name is not that of the dynamic
    tier, whatever the usage is and whichever tier holds the bytes. *)
Theorem governor_keeps_static_and_heritage env w :
  let w' := snd (manageCacheSize env w) in
  CacheAPI.lookup STATIC_CACHE (caches w') = CacheAPI.lookup STATIC_CACHE (caches w)
  /\ CacheAPI.lookup HERITAGE_CACHE (caches w')
     = CacheAPI.lookup HERITAGE_CACHE (caches w)
  /\ forall name, name <> DYNAMIC_CACHE ->
       CacheAPI.lookup name (caches w') = CacheAPI.lookup name (caches w).
Proof.
  cbv zeta.
  assert (H : forall name, name <> DYNAMIC_CACHE ->
    CacheAPI.lookup name (caches (snd (manageCacheSize env w)))
    = CacheAPI.lookup name (caches w)).
  { intros name Hne. rewrite manageCacheSize_run. cbn [snd].
    destruct (storage_estimate env) as [|usage]; [reflexivity|].
    destruct (usage_exceeds usage); [|reflexivity].
    cbn [caches]. rewrite lookup_fold_delete by exact Hne.
    apply CacheFacts.lookup_open_other; exact Hne. }
  split; [apply H; discriminate|].
  split; [apply H; discriminate | exact H].
Qed.

(** ** Activation *)

Lemma append_cancel_l p : forall a b,
  String.append p a = String.append p b -> a = b.
Proof.
  induction p as [|c p IH]; cbn; intros a b H; [exact H|].
  injection H as H. apply IH; exact H.
Qed.

(** A tier name of one build is no tier name of another build. *)
Lemma stale_names_not_current tag old :
  old <> tag ->
  is_current tag (static_name old) = false
  /\ is_current tag (dynamic_name old) = false
  /\ is_current tag (heritage_name old) = false.
Proof.
  intros Hne. unfold is_current, static_name, dynamic_name, heritage_name.
  repeat split; rewrite !orb_false_iff; repeat split; apply String.eqb_neq;
    intros H;
    first [ apply append_cancel_l in H; contradiction
          | cbn in H; discriminate H ].
Qed.

Lemma activate_guard tag name :
  negb (String.eqb name (static_name tag))
  && negb (String.eqb name (dynamic_name tag))
  && negb (String.eqb name (heritage_name tag))
  = negb (is_current tag name).
Proof. unfold is_current. rewrite !negb_orb. reflexivity. Qed.

Lemma survives_cons tag n ns nc :
  survives tag (n :: ns) nc
  = (is_current tag n || negb (String.eqb n (fst nc))) && survives tag ns nc.
Proof.
  unfold survives. cbn [existsb]. rewrite (String.eqb_sym n (fst nc)).
  destruct (String.eqb (fst nc) n) eqn:E; cbn [orb negb].
  - apply String.eqb_eq in E. rewrite E.
    destruct (is_current tag n); reflexivity.
  - rewrite orb_true_r. reflexivity.
Qed.

Lemma filter_survives_step tag n ns (cs : CacheStorage) :
  filter (survives tag ns)
    (if negb (is_current tag n) then CacheAPI.caches_delete n cs else cs)
  = filter (survives tag (n :: ns)) cs.
Proof.
  unfold CacheAPI.caches_delete.
  destruct (is_current tag n) eqn:Hcur; cbn [negb].
  - apply filter_ext. intros nc. rewrite survives_cons, Hcur. reflexivity.
  - induction cs as [|nc cs IH]; [reflexivity|].
    cbn [filter]. rewrite survives_cons, Hcur. cbn [orb].
    destruct (negb (String.eqb n (fst nc))); cbn [andb filter];
      rewrite IH; reflexivity.
Qed.

Lemma activate_loop tag ns : forall w,
  for_of ns (fun cacheName =>
    if negb (String.eqb cacheName (static_name tag))
       && negb (String.eqb cacheName (dynamic_name tag))
       && negb (String.eqb cacheName (heritage_name tag))
    then caches_delete cacheName
    else ret tt) w
  = (Ok tt, mkWorld (filter (survives tag ns) (caches w)) (idb w) (trace w)).
Proof.
  induction ns as [|n ns IH]; intros w; cbn [for_of].
  - unfold ret. f_equal. destruct w as [cs db t]; cbn [caches idb trace].
    f_equal. symmetry. apply forallb_filter_id.
    apply forallb_forall. intros x _. unfold survives. cbn.
    apply orb_true_r.
  - unfold bind at 1. rewrite activate_guard.
    destruct (is_current tag n) eqn:Hcur; cbn [negb].
    + unfold ret at 1. rewrite IH.
      rewrite <- (filter_survives_step tag n ns), Hcur. reflexivity.
    + unfold caches_delete at 1, modify_caches at 1. rewrite IH.
      cbn [caches idb trace].
      rewrite <- (filter_survives_step tag n ns (caches w)), Hcur. reflexivity.
Qed.

Lemma activate_at_run tag w :
  activate_at tag w
  = (Ok tt,
     mkWorld (filter (fun nc => is_current tag (fst nc)) (caches w))
       (idb w) (trace w)).
Proof.
  unfold activate_at. unfold bind at 1, caches_keys at 1, bind at 1,
    get_caches at 1, ret at 1.
  rewrite activate_loop. f_equal. f_equal.
  apply filter_ext_in. intros [m c] Hin. unfold survives, CacheAPI.caches_keys.
  cbn [fst].
  replace (existsb (String.eqb m) (map fst (caches w))) with true;
    [destruct (is_current tag m); reflexivity|].
  symmetry. apply existsb_exists. exists m. split.
  - apply in_map_iff. exists (m, c). split; [reflexivity | exact Hin].
  - apply String.eqb_refl.
Qed.

Lemma lookup_filter_by_name (p : string -> bool) name cs :
  CacheAPI.lookup name (filter (fun nc => p (fst nc)) cs)
  = if p name then CacheAPI.lookup name cs else None.
Proof.
  induction cs as [|[m c] cs IH]; cbn [filter CacheAPI.lookup fst].
  - destruct (p name); reflexivity.
  - destruct (String.eqb name m) eqn:E.
    + apply String.eqb_eq in E; subst m.
      destruct (p name) eqn:Hp.
      * cbn [CacheAPI.lookup]. rewrite String.eqb_refl. reflexivity.
      * rewrite IH; try rewrite Hp; reflexivity.
    + destruct (p m); [cbn [CacheAPI.lookup]; rewrite E|]; exact IH.
Qed.

(** C9: activation by a worker built with [tag] keeps exactly the caches
    named after the three tiers of [tag], each with its entries, and
    deletes every other cache; so the three tiers of any other build tag
    [old] are gone afterwards.  The worker of the source is the instance
    at [VERSION]. *)
Theorem activation_deletes_stale_tiers tag old w :
  old <> tag ->
  let w' := snd (activate_at tag w) in
  fst (activate_at tag w) = Ok tt
  /\ caches w' = filter (fun nc => is_current tag (fst nc)) (caches w)
  /\ (forall name, is_current tag name = true ->
        CacheAPI.lookup name (caches w') = CacheAPI.lookup name (caches w))
  /\ (forall name, is_current tag name = false ->
        CacheAPI.lookup name (caches w') = None)
  /\ CacheAPI.lookup (static_name old) (caches w') = None
  /\ CacheAPI.lookup (dynamic_name old) (caches w') = None
  /\ CacheAPI.lookup (heritage_name old) (caches w') = None
  /\ activate = activate_at VERSION
  /\ (STATIC_CACHE, DYNAMIC_CACHE, HERITAGE_CACHE)
     = (static_name VERSION, dynamic_name VERSION, heritage_name VERSION).
Proof.
  intros Hne. cbv zeta. rewrite activate_at_run. cbn [fst snd caches].
  destruct (stale_names_not_current tag old Hne) as [Hs [Hd Hh]].
  split; [reflexivity|]. split; [reflexivity|].
  split; [intros name Hc; rewrite (lookup_filter_by_name (is_current tag)), Hc;
          reflexivity|].
  split; [intros name Hc; rewrite (lookup_filter_by_name (is_current tag)), Hc;
          reflexivity|].
  rewrite !(lookup_filter_by_name (is_current tag)), Hs, Hd, Hh.
  repeat split.
Qed.

Lemma activation_deletes_stale_tiers_witness :
  "v1.1.0" <> VERSION
  /\ CacheAPI.caches_keys (caches Demo.populated)
     = ["bharatvrsh-static-v1.1.0"; STATIC_CACHE; "bharatvrsh-dynamic-v1.1.0";
        DYNAMIC_CACHE; HERITAGE_CACHE]
  /\ CacheAPI.lookup (static_name "v1.1.0") (caches (snd (activate Demo.populated)))
     = None
  /\ CacheAPI.lookup (dynamic_name "v1.1.0") (caches (snd (activate Demo.populated)))
     = None
  /\ CacheAPI.lookup STATIC_CACHE (caches (snd (activate Demo.populated)))
     = CacheAPI.lookup STATIC_CACHE (caches Demo.populated).
Proof.
  assert (Hne : "v1.1.0" <> VERSION) by (cbv; discriminate).
  destruct (activation_deletes_stale_tiers VERSION "v1.1.0" Demo.populated Hne)
    as [_ [_ [Hkeep [_ [Hs [Hd _]]]]]].
  split; [exact Hne|]. split; [reflexivity|].
  split; [exact Hs|]. split; [exact Hd|].
  exact (Hkeep STATIC_CACHE eq_refl).
Defined.

(** ** The deferred action queue *)

Lemma try_catch_returns {A} (m : M A) (h : Error -> M A) w a :
  fst (m w) = Ok a -> try_catch m h w = m w.
Proof.
  unfold try_catch. destruct (m w) as [[a'|e] w']; cbn; intros H;
    [reflexivity | discriminate H].
Qed.

Lemma removals_app t1 t2 : removals (t1 ++ t2) = removals t1 ++ removals t2.
Proof. unfold removals. apply flat_map_app. Qed.




(** With the helpers as the source has them, a flush pass reads an empty
    queue: it sends nothing and removes nothing. *)
Lemma sync_with_placeholders env w :
  syncHeritageData placeholder_db env w = (Ok tt, w)
  /\ syncUserFeedback placeholder_db env w = (Ok tt, w).
Proof. split; reflexivity. Qed.



(** ** The cache-bundle control message *)


(** Fetching and storing one URL of a bundle. *)
Lemma cache_one rejects env u w :
  try_catch
    (response <- fetch env (Request_of env u) ;;
     if ok response
     then rejecting_put rejects env HERITAGE_CACHE (Request_of env u) response
     else ret tt)
    (fun error => ret tt) w
  = (Ok tt,
     match net env (Request_of env u) with
     | Some r =>
         if bundle_stores rejects env u r
         then mkWorld
                (CacheAPI.update HERITAGE_CACHE
                   (CacheAPI.cache_put (key_of (Request_of env u)) r) (caches w))
                (idb w)
                ((trace w ++ [EvFetch (Request_of env u)])
                   ++ [EvCacheWrite HERITAGE_CACHE (key_of (Request_of env u)) r])
         else mkWorld (caches w) (idb w) (trace w ++ [EvFetch (Request_of env u)])
     | None => mkWorld (caches w) (idb w) (trace w ++ [EvFetch (Request_of env u)])
     end).
Proof.
  cbv [try_catch bind fetch log ret throw rejecting_put cache_put cache_store
       modify_caches bundle_stores].
  cbn [caches idb trace].
  destruct (net env (Request_of env u)) as [r|]; [|reflexivity].
  destruct (ok r); [|reflexivity].
  destruct (rejects (key_of (Request_of env u))); [reflexivity|].
  destruct (put_accepts env (Request_of env u) r); reflexivity.
Qed.

(** The loop over the URLs of a bundle, once the heritage tier is open. *)
Lemma bundle_pass rejects env : forall urls w,
  CacheAPI.has HERITAGE_CACHE (caches w) = true ->
  let r :=
    for_of urls (fun u =>
      try_catch
        (response <- fetch env (Request_of env u) ;;
         if ok response
         then rejecting_put rejects env HERITAGE_CACHE
                (Request_of env u) response
         else ret tt)
        (fun error => ret tt)) w in
  let before := CacheAPI.tier HERITAGE_CACHE (caches w) in
  let after := CacheAPI.tier HERITAGE_CACHE (caches (snd r)) in
  fst r = Ok tt
  /\ (forall name, name <> HERITAGE_CACHE ->
        CacheAPI.lookup name (caches (snd r)) = CacheAPI.lookup name (caches w))
  /\ idb (snd r) = idb w
  /\ fetches (trace (snd r)) = fetches (trace w) ++ map (Request_of env) urls
  /\ (forall u resp, In u urls ->
        net env (Request_of env u) = Some resp ->
        bundle_stores rejects env u resp = true ->
        exists u' resp',
          In u' urls
          /\ key_of (Request_of env u') = key_of (Request_of env u)
          /\ net env (Request_of env u') = Some resp'
          /\ bundle_stores rejects env u' resp' = true
          /\ CacheAPI.cache_match (key_of (Request_of env u)) after
             = Some resp')
  /\ (forall k,
        (forall u resp, In u urls -> key_of (Request_of env u) = k ->
           net env (Request_of env u) = Some resp ->
           bundle_stores rejects env u resp = false) ->
        CacheAPI.cache_match k after = CacheAPI.cache_match k before).
Proof.
  induction urls as [|u0 urls IH]; intros w Hhas; cbv zeta.
  - cbn. rewrite app_nil_r. repeat split; auto. intros u resp [].
  - match goal with
    | |- context [for_of (u0 :: urls) ?f w] =>
        assert (Hstep : for_of (u0 :: urls) f w = for_of urls f (snd (f u0 w)))
          by (cbn [for_of]; unfold bind at 1; rewrite cache_one; reflexivity);
        rewrite Hstep; clear Hstep
    end.
    rewrite cache_one. cbn [snd].
    set (k0 := key_of (Request_of env u0)) in *.
    match goal with
    | |- context [for_of urls ?f ?w1] =>
        set (w1' := w1); specialize (IH w1'); cbv zeta in IH
    end.
    assert (Hrun : caches w1' = caches w /\
                   (forall resp, net env (Request_of env u0) = Some resp ->
                      bundle_stores rejects env u0 resp = false)
                   \/ exists resp,
                        net env (Request_of env u0) = Some resp
                        /\ bundle_stores rejects env u0 resp = true
                        /\ caches w1'
                           = CacheAPI.update HERITAGE_CACHE
                               (CacheAPI.cache_put k0 resp) (caches w)).
    { subst w1'. destruct (net env (Request_of env u0)) as [r|].
      - destruct (bundle_stores rejects env u0 r) eqn:Hs.
        + right. exists r. repeat split; auto.
        + left. split; [reflexivity|]. intros resp Hr. congruence.
      - left. split; [reflexivity|]. intros resp Hr. discriminate. }
    assert (Hidb : idb w1' = idb w).
    { subst w1'. destruct (net env (Request_of env u0)) as [r|]; [|reflexivity].
      destruct (bundle_stores rejects env u0 r); reflexivity. }
    assert (Hf : fetches (trace w1') = fetches (trace w) ++ [Request_of env u0]).
    { subst w1'. destruct (net env (Request_of env u0)) as [r|];
        [destruct (bundle_stores rejects env u0 r)|]; cbn [trace];
        autorewrite with trace_db; reflexivity. }
    clearbody w1'.
    assert (Hhas1 : CacheAPI.has HERITAGE_CACHE (caches w1') = true).
    { destruct Hrun as [[-> _]|(resp & _ & _ & ->)]; [exact Hhas|].
      rewrite CacheFacts.has_update. exact Hhas. }
    assert (Hother : forall name, name <> HERITAGE_CACHE ->
              CacheAPI.lookup name (caches w1') = CacheAPI.lookup name (caches w)).
    { intros name Hne.
      destruct Hrun as [[-> _]|(resp & _ & _ & ->)]; [reflexivity|].
      apply CacheFacts.lookup_update_other; exact Hne. }
    assert (Hput : forall resp, net env (Request_of env u0) = Some resp ->
              bundle_stores rejects env u0 resp = true ->
              CacheAPI.cache_match k0 (CacheAPI.tier HERITAGE_CACHE (caches w1'))
              = Some resp).
    { intros resp Hn Ho.
      destruct Hrun as [[_ Hno]|(resp' & Hn' & _ & ->)].
      - rewrite (Hno resp Hn) in Ho. discriminate.
      - rewrite CacheFacts.tier_update_same by exact Hhas.
        replace resp' with resp by congruence.
        apply CacheFacts.cache_match_put_same. }
    assert (Hsame : forall k,
              (key_of (Request_of env u0) = k ->
               forall resp, net env (Request_of env u0) = Some resp ->
                 bundle_stores rejects env u0 resp = false) ->
              CacheAPI.cache_match k (CacheAPI.tier HERITAGE_CACHE (caches w1'))
              = CacheAPI.cache_match k (CacheAPI.tier HERITAGE_CACHE (caches w))).
    { intros k Hk.
      destruct Hrun as [[-> _]|(resp & Hn & Ho & ->)]; [reflexivity|].
      rewrite CacheFacts.tier_update_same by exact Hhas.
      apply CacheFacts.cache_match_put_other.
      intros Heq. subst k. rewrite (Hk eq_refl resp Hn) in Ho. discriminate. }
    destruct (IH Hhas1) as (H1 & H2 & H3 & H4 & H5 & H6). clear IH.
    split; [exact H1|].
    split; [intros name Hne; rewrite H2 by exact Hne; apply Hother; exact Hne|].
    split; [congruence|].
    split; [rewrite H4, Hf, <- app_assoc; reflexivity|].
    split.
    + intros u resp [<-|Hin] Hn Ho.
      * fold k0.
        set (stores_later := fun u' =>
               key_eqb (key_of (Request_of env u')) k0
               && match net env (Request_of env u') with
                  | Some r' => bundle_stores rejects env u' r'
                  | None => false
                  end).
        destruct (existsb stores_later urls) eqn:Hex.
        -- apply existsb_exists in Hex. destruct Hex as (u1 & Hin1 & Hs1).
           unfold stores_later in Hs1. apply andb_true_iff in Hs1.
           destruct Hs1 as [Hk1 Hs1]. apply key_eqb_eq in Hk1.
           destruct (net env (Request_of env u1)) as [r1|] eqn:Hn1;
             [|discriminate Hs1].
           destruct (H5 u1 r1 Hin1 Hn1 Hs1) as (u2 & r2 & Hin2 & Hk2 & Hn2 & Hs2 & Hm2).
           exists u2, r2. rewrite Hk1 in Hk2, Hm2.
           repeat split; auto. right; exact Hin2.
        -- exists u0, resp. fold k0.
           split; [left; reflexivity|]. split; [reflexivity|].
           split; [exact Hn|]. split; [exact Ho|].
           rewrite H6; [apply (Hput resp Hn Ho)|].
           intros u' resp' Hin' Hk' Hn'.
           destruct (bundle_stores rejects env u' resp') eqn:Hs'; [|reflexivity].
           exfalso.
           assert (Hsome : existsb stores_later urls = true).
           { apply existsb_exists. exists u'. split; [exact Hin'|].
             unfold stores_later. rewrite Hk', key_eqb_refl, Hn', Hs'.
             reflexivity. }
           congruence.
      * destruct (H5 u resp Hin Hn Ho) as (u2 & r2 & Hin2 & Hk2 & Hn2 & Hs2 & Hm2).
        exists u2, r2. repeat split; auto. right; exact Hin2.
    + intros k Hk. rewrite H6.
      * apply Hsame. intros Hkey resp Hn.
        apply (Hk u0 resp (or_introl eq_refl) Hkey Hn).
      * intros u resp Hin Hkey Hn.
        apply (Hk u resp (or_intror Hin) Hkey Hn).
Qed.


(** ** Distinct keys are an invariant of the storage *)

Lemma distinct_keys_open name cs :
  distinct_keys cs -> distinct_keys (CacheAPI.open name cs).
Proof.
  unfold distinct_keys, CacheAPI.open. intros H.
  destruct (CacheAPI.has name cs); [exact H|].
  apply Forall_app. split; [exact H|].
  constructor; [constructor | constructor].
Qed.

Lemma distinct_keys_update name f cs :
  (forall c, NoDup (CacheAPI.cache_keys c) -> NoDup (CacheAPI.cache_keys (f c))) ->
  distinct_keys cs -> distinct_keys (CacheAPI.update name f cs).
Proof.
  unfold distinct_keys. intros Hf.
  induction 1 as [|[n c] cs Hc Hcs IH]; cbn [CacheAPI.update]; [constructor|].
  destruct (String.eqb name n); constructor; auto.
  cbn [snd] in *. apply Hf; exact Hc.
Qed.

Lemma distinct_keys_tier name cs :
  distinct_keys cs -> NoDup (CacheAPI.cache_keys (CacheAPI.tier name cs)).
Proof.
  unfold distinct_keys, CacheAPI.tier.
  induction 1 as [|[n c] cs Hc Hcs IH]; cbn [CacheAPI.lookup]; [constructor|].
  destruct (String.eqb name n); [exact Hc | exact IH].
Qed.

Lemma strategies_keep_distinct_keys s env request w :
  distinct_keys (caches w) ->
  distinct_keys (caches (snd (handler_of s env request w))).
Proof.
  intros H.
  destruct s; cbn [handler_of]; run_js;
    repeat match goal with
    | |- context [CacheAPI.caches_match ?k ?c] =>
        destruct (CacheAPI.caches_match k c); cbn [fst snd caches idb trace]
    | |- context [match net ?e ?r with _ => _ end] =>
        destruct (net e r) as [resp|]; cbn [fst snd caches idb trace]
    | |- context [ok ?r] =>
        destruct (ok r); cbn [fst snd caches idb trace andb]
    | |- context [String.eqb ?a ?b] =>
        destruct (String.eqb a b); cbn [fst snd caches idb trace andb]
    | |- context [put_accepts ?e ?q ?r] =>
        destruct (put_accepts e q r); cbn [fst snd caches idb trace andb]
    end;
    try exact H;
    first [ apply distinct_keys_open; exact H
          | apply distinct_keys_update;
            [intros c; apply CacheFacts.cache_put_NoDup
            | apply distinct_keys_open; exact H] ].
Qed.

Lemma governor_keeps_distinct_keys env w :
  distinct_keys (caches w) ->
  distinct_keys (caches (snd (manageCacheSize env w))).
Proof.
  intros H. rewrite manageCacheSize_run. cbn [snd].
  destruct (storage_estimate env) as [|usage]; [exact H|].
  destruct (usage_exceeds usage); [|exact H]. cbn [caches].
  generalize (firstn
                (floor_20_percent (length (CacheAPI.tier DYNAMIC_CACHE (caches w))))
                (CacheAPI.cache_keys (CacheAPI.tier DYNAMIC_CACHE (caches w)))).
  intros ks.
  assert (Ho : distinct_keys (CacheAPI.open DYNAMIC_CACHE (caches w)))
    by (apply distinct_keys_open; exact H).
  revert Ho. generalize (CacheAPI.open DYNAMIC_CACHE (caches w)).
  induction ks as [|k ks IH]; intros cs Hcs; cbn [fold_left]; [exact Hcs|].
  apply IH. apply distinct_keys_update; [|exact Hcs].
  intros c. apply CacheFacts.cache_delete_NoDup.
Qed.

(** ** Runs on the example worlds *)

Example classify_examples :
  map (classify Demo.online)
    [Demo.get "/styles/main.css" "no-cors"; Demo.get "/api/heritage/sites" "cors";
     Demo.get "/assets/models/bateshwar_temple.glb" "cors";
     Demo.get "/tours/42" "navigate"; Demo.get "/about" "cors";
     Demo.get "/" "navigate"; Demo.get "/api/scripts/x" "cors"]
  = [StaticAsset; Api; HeritageContent; Navigation; Default;
     StaticAsset; StaticAsset].
Proof. reflexivity. Qed.

Example api_offline_without_copy :
  fst (handleAPIRequest Demo.offline (Demo.get "/api/heritage/sites" "cors")
         Demo.empty)
  = Ok (Some offline_api_response).
Proof. reflexivity. Qed.

Example api_offline_with_copy :
  fst (handleAPIRequest Demo.offline (Demo.get "/api/tours" "cors")
         Demo.populated)
  = Ok (Some (Demo.page "old tours")).
Proof. reflexivity. Qed.

Example navigation_offline_with_shell :
  fst (handleNavigation Demo.offline (Demo.get "/tours/42" "navigate")
         Demo.populated)
  = Ok (Some (Demo.page "old shell")).
Proof. reflexivity. Qed.

Example governor_on_populated :
  map (fun nc => (fst nc, length (snd nc)))
    (caches (snd (manageCacheSize Demo.online Demo.populated)))
  = [("bharatvrsh-static-v1.1.0", 1); (STATIC_CACHE, 2);
     ("bharatvrsh-dynamic-v1.1.0", 1); (DYNAMIC_CACHE, 9); (HERITAGE_CACHE, 1)]
  /\ manageCacheSize Demo.offline Demo.populated = (Ok tt, Demo.populated).
Proof. split; reflexivity. Qed.

Example bundle_on_flaky_network :
  let w := snd (cacheHeritageSite Demo.flaky (Some Demo.site) Demo.empty) in
  map url (fetches (trace w))
  = ["https://bharatvrsh.example/assets/images/bateshwar-featured.jpg";
     "https://bharatvrsh.example/assets/models/down.glb";
     "https://bharatvrsh.example/assets/audio/missing.mp3";
     "https://bharatvrsh.example/assets/audio/bateshwar_tour_en.mp3"]
  /\ map (fun e => snd (fst e)) (CacheAPI.tier HERITAGE_CACHE (caches w))
     = ["https://bharatvrsh.example/assets/images/bateshwar-featured.jpg";
        "https://bharatvrsh.example/assets/audio/bateshwar_tour_en.mp3"].
Proof. split; reflexivity. Qed.

(** * Further properties of the worker *)

(** ** The other fetch strategies *)

Lemma cache_reads_app t1 t2 :
  cache_reads (t1 ++ t2) = cache_reads t1 ++ cache_reads t2.
Proof. unfold cache_reads. apply flat_map_app. Qed.

(** X1: [handleHeritageContent] is cache-first into the heritage tier.  A
    copy found by [caches.match] is the answer, with no network call and
    no change of the storage.  Otherwise one request goes to the network;
    its response is the answer.  A successful response changes no tier but
    the heritage one, and it is the heritage tier's entry for the request
    afterwards when [put] accepts it (a GET over http(s), a status other
    than 206); when [put] refuses it, as it does a partial answer to a
    range request, the heritage tier holds what it held.  A response that
    is not successful changes no tier; a rejected request makes the
    handler throw, and the storage is as before. *)
Theorem heritage_content_cache_first env request w :
  let k := key_of request in
  let res := fst (handleHeritageContent env request w) in
  let w' := snd (handleHeritageContent env request w) in
  match CacheAPI.caches_match k (caches w) with
  | Some c =>
      res = Ok (Some c)
      /\ fetches (trace w') = fetches (trace w)
      /\ caches w' = caches w
  | None =>
      fetches (trace w') = fetches (trace w) ++ [request]
      /\ match net env request with
         | Some r =>
             res = Ok (Some r)
             /\ if ok r then
                  (forall name, name <> HERITAGE_CACHE ->
                     CacheAPI.lookup name (caches w')
                     = CacheAPI.lookup name (caches w))
                  /\ if put_accepts env request r then
                       CacheAPI.tier HERITAGE_CACHE (caches w')
                       = CacheAPI.cache_put k r
                           (CacheAPI.tier HERITAGE_CACHE (caches w))
                       /\ CacheAPI.cache_match k
                            (CacheAPI.tier HERITAGE_CACHE (caches w'))
                          = Some r
                     else
                       CacheAPI.tier HERITAGE_CACHE (caches w')
                       = CacheAPI.tier HERITAGE_CACHE (caches w)
                else caches w' = caches w
         | None => res = Throw NetworkError /\ caches w' = caches w
         end
  end.
Proof.
  cbv zeta. run_js.
  destruct (CacheAPI.caches_match (key_of request) (caches w)) as [c|] eqn:Hhit;
    cbn [fst snd caches idb trace].
  - repeat split. autorewrite with trace_db. reflexivity.
  - destruct (net env request) as [r|] eqn:Hnet;
      cbn [fst snd caches idb trace].
    + destruct (ok r) eqn:Hok; cbn [fst snd caches idb trace].
      * destruct (put_accepts env request r);
          cbn [fst snd caches idb trace]; autorewrite with trace_db;
          (split; [reflexivity|]); (split; [reflexivity|]).
        -- destruct (put_in_opened_tier HERITAGE_CACHE (key_of request) r
                       (caches w)) as (Ht & Hm & Ho).
           split; [exact Ho | split; [exact Ht | exact Hm]].
        -- destruct (opened_tier HERITAGE_CACHE (caches w)) as (Ht & Ho).
           split; [exact Ho | exact Ht].
      * autorewrite with trace_db. repeat split.
    + rewrite Hhit. cbn [fst snd caches idb trace].
      autorewrite with trace_db. repeat split.
Qed.

(** X2: [handleDefault] is network-first into the dynamic tier.  The first
    thing it does is the network call; a response is the answer.  A
    successful response changes no tier but the dynamic one, and it is the
    dynamic tier's entry for the request afterwards when [put] accepts it
    (a GET over http(s), a status other than 206); when [put] refuses it
    the dynamic tier holds what it held.  A response that is not
    successful changes no tier.  When the request is rejected the storage
    is as before and the answer is the copy [caches.match] finds; with no
    copy the handler throws. *)
Theorem default_network_first env request w :
  let k := key_of request in
  let res := fst (handleDefault env request w) in
  let w' := snd (handleDefault env request w) in
  (exists t, trace w' = trace w ++ EvFetch request :: t)
  /\ match net env request with
     | Some r =>
         res = Ok (Some r)
         /\ if ok r then
              (forall name, name <> DYNAMIC_CACHE ->
                 CacheAPI.lookup name (caches w')
                 = CacheAPI.lookup name (caches w))
              /\ if put_accepts env request r then
                   CacheAPI.tier DYNAMIC_CACHE (caches w')
                   = CacheAPI.cache_put k r
                       (CacheAPI.tier DYNAMIC_CACHE (caches w))
                   /\ CacheAPI.cache_match k
                        (CacheAPI.tier DYNAMIC_CACHE (caches w'))
                      = Some r
                 else
                   CacheAPI.tier DYNAMIC_CACHE (caches w')
                   = CacheAPI.tier DYNAMIC_CACHE (caches w)
            else caches w' = caches w
     | None =>
         caches w' = caches w
         /\ res = match CacheAPI.caches_match k (caches w) with
                  | Some c => Ok (Some c)
                  | None => Throw NetworkError
                  end
     end.
Proof.
  cbv zeta. run_js.
  destruct (net env request) as [r|] eqn:Hnet; cbn [fst snd caches idb trace].
  - destruct (ok r) eqn:Hok; cbn [fst snd caches idb trace].
    + destruct (put_accepts env request r); cbn [fst snd caches idb trace].
      * split; [eexists; rewrite <- app_assoc; reflexivity|].
        destruct (put_in_opened_tier DYNAMIC_CACHE (key_of request) r
                    (caches w)) as (Ht & Hm & Ho).
        split; [reflexivity|]. split; [exact Ho | split; [exact Ht | exact Hm]].
      * split; [exists []; reflexivity|].
        destruct (opened_tier DYNAMIC_CACHE (caches w)) as (Ht & Ho).
        split; [reflexivity|]. split; [exact Ho | exact Ht].
    + split; [exists []; reflexivity|]. split; reflexivity.
  - destruct (CacheAPI.caches_match (key_of request) (caches w)) as [c|];
      cbn [fst snd caches idb trace];
      (split; [eexists; rewrite <- app_assoc; reflexivity|]);
      split; reflexivity.
Qed.

(** X3: the failure path of [handleStaticAsset].  With no cached copy and a
    rejected request, the storage is as before; a navigation is answered
    with what [caches.match] finds for [/offline.html], which is
    [undefined] when that page is not cached, and any other request makes
    the handler throw. *)
Theorem static_asset_offline_without_copy env request w :
  CacheAPI.caches_match (key_of request) (caches w) = None ->
  net env request = None ->
  let res := fst (handleStaticAsset env request w) in
  let w' := snd (handleStaticAsset env request w) in
  caches w' = caches w
  /\ res = if String.eqb (mode request) "navigate"
           then Ok (CacheAPI.caches_match
                      (key_of (Request_of env "/offline.html")) (caches w))
           else Throw NetworkError.
Proof.
  intros Hhit Hnet. cbv zeta. run_js.
  rewrite Hhit. cbn [fst snd caches idb trace].
  rewrite Hnet. cbn [fst snd caches idb trace].
  rewrite Hhit. cbn [fst snd caches idb trace].
  destruct (String.eqb (mode request) "navigate"); split; reflexivity.
Qed.

Lemma static_asset_offline_without_copy_witness :
  let request := Demo.get "/" "navigate" in
  CacheAPI.caches_match (key_of request) (caches Demo.empty) = None
  /\ net Demo.offline request = None
  /\ classify Demo.offline request = StaticAsset
  /\ fst (handleStaticAsset Demo.offline request Demo.empty) = Ok None.
Proof.
  cbv zeta.
  destruct (static_asset_offline_without_copy Demo.offline
              (Demo.get "/" "navigate") Demo.empty eq_refl eq_refl)
    as [_ Hres].
  split; [reflexivity|]. split; [reflexivity|]. split; [reflexivity|].
  exact Hres.
Defined.

(** X4: [handleNavigation] never writes: whatever the network and the
    storage, the caches and the queues are as before and the trace gains no
    cache write.  When the network answers, the answer is that response,
    whatever its status, and no cache is read. *)
Theorem navigation_never_writes env request w :
  let res := fst (handleNavigation env request w) in
  let w' := snd (handleNavigation env request w) in
  caches w' = caches w
  /\ idb w' = idb w
  /\ cache_writes (trace w') = cache_writes (trace w)
  /\ forall r, net env request = Some r ->
       res = Ok (Some r) /\ cache_reads (trace w') = cache_reads (trace w).
Proof.
  cbv zeta. run_js.
  destruct (net env request) as [r|] eqn:Hnet; cbn [fst snd caches idb trace].
  - rewrite cache_writes_app, cache_reads_app. cbn. rewrite !app_nil_r.
    split; [reflexivity|]. split; [reflexivity|]. split; [reflexivity|].
    intros r' Hr. inversion Hr. split; reflexivity.
  - destruct (CacheAPI.caches_match _ (caches w));
      cbn [fst snd caches idb trace];
      rewrite !cache_writes_app; cbn; rewrite !app_nil_r;
      (split; [reflexivity|]); (split; [reflexivity|]);
      (split; [reflexivity|]); intros r' Hr; discriminate Hr.
Qed.

(** X5: a request whose URL is not over http(s) (an extension's, say)
    leaves the listener before any handler runs, whatever its method: the
    world is as it was. *)
Theorem fetch_listener_non_http env request w :
  JSString.startsWith (protocol (new_URL env (url request))) "http" = false ->
  fetch_listener env request w = (NotIntercepted, w).
Proof.
  intros H. unfold fetch_listener. rewrite H.
  destruct (negb (String.eqb (method request) "GET")); reflexivity.
Qed.

Lemma fetch_listener_non_http_witness :
  let env := mkEnv (net Demo.online)
               (fun s => mkURL s "chrome-extension:" "abcdef" "/popup.js")
               (EstimateOf None) in
  let request := mkRequest "GET" "chrome-extension://abcdef/popup.js" "no-cors"
                   None in
  JSString.startsWith (protocol (new_URL env (url request))) "http" = false
  /\ fetch_listener env request Demo.populated = (NotIntercepted, Demo.populated).
Proof.
  cbv zeta. split; [reflexivity|].
  apply fetch_listener_non_http. reflexivity.
Defined.

(** ** The classifier *)

Lemma startsWith_trans p : forall s e,
  JSString.startsWith s e = true -> JSString.startsWith e p = true ->
  JSString.startsWith s p = true.
Proof.
  induction p as [|a p IH]; intros s e Hse Hep; [destruct s; reflexivity|].
  destruct e as [|b e]; [discriminate Hep|].
  destruct s as [|c s]; [discriminate Hse|].
  cbn [JSString.startsWith] in *.
  apply andb_true_iff in Hse. destruct Hse as [Hbc Hse].
  apply andb_true_iff in Hep. destruct Hep as [Hab Hep].
  apply Ascii.eqb_eq in Hbc. apply Ascii.eqb_eq in Hab. subst.
  rewrite Ascii.eqb_refl. cbn [andb]. apply (IH s e); assumption.
Qed.

(** X6: the endpoint list of [isAPIRequest] adds nothing: a URL is an API
    request exactly when its path starts with [/api/]. *)
Theorem isAPIRequest_is_api_prefix (u : URL) :
  isAPIRequest u = JSString.startsWith (pathname u) "/api/".
Proof.
  unfold isAPIRequest.
  destruct (JSString.startsWith (pathname u) "/api/") eqn:E; [reflexivity|].
  cbn [orb]. apply not_true_is_false. intros H.
  apply existsb_exists in H. destruct H as (endpoint & Hin & Hs).
  assert (He : JSString.startsWith endpoint "/api/" = true).
  { cbn in Hin. destruct Hin as [<-|[<-|[<-|[]]]]; reflexivity. }
  rewrite (startsWith_trans _ _ _ Hs He) in E. discriminate E.
Qed.

Lemma trailing_slash_is_static (u : URL) :
  JSString.endsWith (pathname u) "/" = true -> isStaticAsset u = true.
Proof.
  intros H. unfold isStaticAsset, STATIC_ASSETS. cbn [existsb].
  rewrite H. reflexivity.
Qed.

(** X7: a request for a URL whose path ends in [/] is a static asset for
    the classifier, whatever its mode.  So a navigation to such a URL
    never reaches [handleNavigation]: with the network down and no cached
    copy of that URL, the answer is what [caches.match] finds for
    [/offline.html], the cached application shell playing no part. *)
Theorem directory_navigation_is_static_asset env request w :
  JSString.endsWith (pathname (new_URL env (url request))) "/" = true ->
  mode request = "navigate" ->
  CacheAPI.caches_match (key_of request) (caches w) = None ->
  net env request = None ->
  classify env request = StaticAsset
  /\ handleFetchRequest env request = handleStaticAsset env request
  /\ fst (handleFetchRequest env request w)
     = Ok (CacheAPI.caches_match (key_of (Request_of env "/offline.html"))
             (caches w)).
Proof.
  intros Hend Hmode Hhit Hnet.
  assert (Hc : classify env request = StaticAsset).
  { unfold classify. rewrite (trailing_slash_is_static _ Hend). reflexivity. }
  split; [exact Hc|].
  rewrite handleFetchRequest_classify, Hc. cbn [handler_of].
  split; [reflexivity|].
  run_js. rewrite Hhit. cbn [fst snd caches idb trace].
  rewrite Hnet. cbn [fst snd caches idb trace].
  rewrite Hhit, Hmode. reflexivity.
Qed.

Lemma directory_navigation_is_static_asset_witness :
  let request := Demo.get "/" "navigate" in
  JSString.endsWith (pathname (new_URL Demo.offline (url request))) "/" = true
  /\ CacheAPI.caches_match (key_of (Request_of Demo.offline "/index.html"))
       (caches Demo.populated)
     = Some (Demo.page "old shell")
  /\ fst (handleFetchRequest Demo.offline request Demo.populated) = Ok None.
Proof.
  cbv zeta.
  destruct (directory_navigation_is_static_asset Demo.offline
              (Demo.get "/" "navigate") Demo.populated
              eq_refl eq_refl eq_refl eq_refl) as [_ [_ Hres]].
  split; [reflexivity|]. split; [reflexivity|]. exact Hres.
Defined.

(** ** More on the governor *)

Lemma tier_open_any name name' cs :
  CacheAPI.tier name' (CacheAPI.open name cs) = CacheAPI.tier name' cs.
Proof.
  destruct (String.eqb name' name) eqn:E.
  - apply String.eqb_eq in E. subst. apply CacheFacts.tier_open.
  - apply String.eqb_neq in E. unfold CacheAPI.tier.
    rewrite CacheFacts.lookup_open_other by exact E. reflexivity.
Qed.

(** X8: a dynamic tier of fewer than five entries is never evicted from:
    whatever the usage, a run of the governor ends normally and every tier
    has the entries it had. *)
Theorem governor_spares_small_tier env w :
  length (CacheAPI.tier DYNAMIC_CACHE (caches w)) < 5 ->
  fst (manageCacheSize env w) = Ok tt
  /\ forall name,
       CacheAPI.tier name (caches (snd (manageCacheSize env w)))
       = CacheAPI.tier name (caches w).
Proof.
  intros Hn. rewrite manageCacheSize_run. cbn [fst snd].
  split; [reflexivity|]. intros name.
  destruct (storage_estimate env) as [|usage]; [reflexivity|].
  destruct (usage_exceeds usage); [|reflexivity].
  unfold floor_20_percent. rewrite (Nat.div_small _ 5 Hn).
  cbn [firstn fold_left caches]. apply tier_open_any.
Qed.

Lemma governor_spares_small_tier_witness :
  let w := snd (handleDefault Demo.online (Demo.get "/about" "cors") Demo.empty) in
  length (CacheAPI.tier DYNAMIC_CACHE (caches w)) = 1
  /\ usage_exceeds (Some (150 * Demo.MB)%N) = true
  /\ CacheAPI.tier DYNAMIC_CACHE (caches (snd (manageCacheSize Demo.online w)))
     = CacheAPI.tier DYNAMIC_CACHE (caches w).
Proof.
  cbv zeta. split; [reflexivity|]. split; [reflexivity|].
  apply governor_spares_small_tier. cbn. lia.
Defined.

Lemma last_skipn {A} (d : A) k : forall l,
  k < length l -> last (skipn k l) d = last l d.
Proof.
  induction k as [|k IH]; intros l Hk; [reflexivity|].
  destruct l as [|x l]; [cbn in Hk; lia|].
  cbn [skipn]. rewrite IH by (cbn in Hk; lia).
  destruct l as [|y l]; [cbn in Hk; lia | reflexivity].
Qed.

(** X9: the governor never empties the dynamic tier and never evicts its
    newest entry: on a non-empty tier of distinct keys, whatever the
    estimate, the tier is non-empty afterwards, its last entry in insertion
    order is the one it had, and at least four fifths of the entries
    remain. *)
Theorem governor_keeps_newest env w d :
  NoDup (CacheAPI.cache_keys (CacheAPI.tier DYNAMIC_CACHE (caches w))) ->
  CacheAPI.tier DYNAMIC_CACHE (caches w) <> [] ->
  let before := CacheAPI.tier DYNAMIC_CACHE (caches w) in
  let after :=
    CacheAPI.tier DYNAMIC_CACHE (caches (snd (manageCacheSize env w))) in
  after <> []
  /\ last after d = last before d
  /\ 4 * length before <= 5 * length after.
Proof.
  intros Hnd Hne. cbv zeta. rewrite manageCacheSize_run. cbn [snd].
  assert (Hsame : forall c : Cache, c <> [] ->
            c <> [] /\ last c d = last c d /\ 4 * length c <= 5 * length c)
    by (intros c Hc; split; [exact Hc | split; [reflexivity | lia]]).
  destruct (storage_estimate env) as [|usage]; [apply Hsame; exact Hne|].
  destruct (usage_exceeds usage); [|apply Hsame; exact Hne].
  cbn [caches].
  rewrite tier_fold_delete by apply CacheFacts.has_open.
  rewrite CacheFacts.tier_open, delete_oldest by exact Hnd.
  set (c := CacheAPI.tier DYNAMIC_CACHE (caches w)) in *. clearbody c.
  pose proof (floor_20_percent_spec (length c)) as Hfl.
  assert (Hpos : 0 < length c) by (destruct c; [congruence | cbn; lia]).
  assert (Hlt : floor_20_percent (length c) < length c) by lia.
  split.
  - intros He. apply (f_equal (@length _)) in He.
    rewrite length_skipn in He. cbn [length] in He. lia.
  - split; [apply last_skipn; exact Hlt|].
    rewrite length_skipn. lia.
Qed.

Lemma governor_keeps_newest_witness :
  let before := CacheAPI.tier DYNAMIC_CACHE (caches Demo.populated) in
  let after :=
    CacheAPI.tier DYNAMIC_CACHE
      (caches (snd (manageCacheSize Demo.online Demo.populated))) in
  NoDup (CacheAPI.cache_keys before)
  /\ length before = 11
  /\ last after (Demo.entry "/" "none") = Demo.entry "/i" "i"
  /\ 4 * length before <= 5 * length after.
Proof.
  cbv zeta.
  assert (Hnd : NoDup (CacheAPI.cache_keys
                         (CacheAPI.tier DYNAMIC_CACHE (caches Demo.populated)))).
  { cbn. repeat (constructor; [cbn; intuition discriminate|]). constructor. }
  assert (Hne : CacheAPI.tier DYNAMIC_CACHE (caches Demo.populated) <> [])
    by (cbn; discriminate).
  destruct (governor_keeps_newest Demo.online Demo.populated
              (Demo.entry "/" "none") Hnd Hne) as [_ [Hlast Hlen]].
  split; [exact Hnd|]. split; [reflexivity|].
  split; [rewrite Hlast; reflexivity | exact Hlen].
Defined.

(** X10: when the storage estimate cannot be read (the promise rejects) or
    holds no usage, a run of the governor ends normally and changes
    nothing. *)
Theorem governor_skips_unreadable_estimate env w :
  storage_estimate env = EstimateRejects
  \/ storage_estimate env = EstimateOf None ->
  manageCacheSize env w = (Ok tt, w).
Proof.
  intros [H|H]; rewrite manageCacheSize_run, H; reflexivity.
Qed.

Lemma governor_skips_unreadable_estimate_witness :
  let env := mkEnv (net Demo.online) Demo.new_URL EstimateRejects in
  storage_estimate env = EstimateRejects
  /\ manageCacheSize env Demo.populated = (Ok tt, Demo.populated).
Proof.
  cbv zeta. split; [reflexivity|].
  apply governor_skips_unreadable_estimate. left. reflexivity.
Defined.

(** ** Stored, then served *)

Lemma caches_match_app k cs1 cs2 :
  CacheAPI.caches_match k (cs1 ++ cs2) =
  match CacheAPI.caches_match k cs1 with
  | Some r => Some r
  | None => CacheAPI.caches_match k cs2
  end.
Proof.
  induction cs1 as [|[n c] cs1 IH]; cbn [app CacheAPI.caches_match];
    [reflexivity|].
  destruct (CacheAPI.cache_match k c); [reflexivity | exact IH].
Qed.

Lemma caches_match_open k name cs :
  CacheAPI.caches_match k (CacheAPI.open name cs) = CacheAPI.caches_match k cs.
Proof.
  unfold CacheAPI.open. destruct (CacheAPI.has name cs); [reflexivity|].
  rewrite caches_match_app. cbn.
  destruct (CacheAPI.caches_match k cs); reflexivity.
Qed.

(** An entry of a tier is found by [caches.match], unless an older cache
    answers first. *)
Lemma tier_hit_is_a_hit k name r : forall cs,
  CacheAPI.cache_match k (CacheAPI.tier name cs) = Some r ->
  exists c, CacheAPI.caches_match k cs = Some c.
Proof.
  unfold CacheAPI.tier.
  induction cs as [|[n c0] cs IH]; cbn [CacheAPI.lookup CacheAPI.caches_match];
    intros H; [discriminate H|].
  destruct (CacheAPI.cache_match k c0) as [x|] eqn:E; [exists x; reflexivity|].
  destruct (String.eqb name n); [congruence | apply IH; exact H].
Qed.

Lemma fresh_put_is_the_hit k name r : forall cs,
  CacheAPI.has name cs = true ->
  CacheAPI.caches_match k cs = None ->
  CacheAPI.caches_match k (CacheAPI.update name (CacheAPI.cache_put k r) cs)
  = Some r.
Proof.
  induction cs as [|[n c0] cs IH];
    cbn [CacheAPI.update CacheAPI.caches_match]; intros Hhas Hmiss.
  - discriminate Hhas.
  - destruct (CacheAPI.cache_match k c0) eqn:E; [discriminate Hmiss|].
    unfold CacheAPI.has in Hhas. cbn [existsb fst] in Hhas.
    destruct (String.eqb name n); cbn [CacheAPI.caches_match].
    + rewrite CacheFacts.cache_match_put_same. reflexivity.
    + rewrite E. apply IH; assumption.
Qed.

(** X11: an API request whose successful answer [put] accepted once (a GET
    over http(s), a status other than 206) is never answered with the
    synthesized 503 afterwards: when the network then fails, the answer is
    a copy that [caches.match] finds, and it is the response stored last
    when no cache had a copy before. *)
Theorem api_offline_after_online env env' request w r :
  net env request = Some r -> ok r = true ->
  put_accepts env request r = true ->
  net env' request = None ->
  let k := key_of request in
  let w1 := snd (handleAPIRequest env request w) in
  let res := fst (handleAPIRequest env' request w1) in
  (exists c, res = Ok (Some c) /\ CacheAPI.caches_match k (caches w1) = Some c)
  /\ (CacheAPI.caches_match k (caches w) = None -> res = Ok (Some r)).
Proof.
  intros Hnet Hok Hput Hdown. cbv zeta.
  assert (Hget : method request = "GET").
  { unfold put_accepts in Hput.
    apply andb_true_iff in Hput. destruct Hput as [Hput _].
    apply andb_true_iff in Hput. destruct Hput as [Hput _].
    apply String.eqb_eq. exact Hput. }
  assert (Hw1 : caches (snd (handleAPIRequest env request w))
                = CacheAPI.update DYNAMIC_CACHE
                    (CacheAPI.cache_put (key_of request) r)
                    (CacheAPI.open DYNAMIC_CACHE (caches w))).
  { run_js. rewrite Hnet. cbn [fst snd caches idb trace].
    rewrite Hok, Hput, Hget. reflexivity. }
  assert (Hres : fst (handleAPIRequest env' request
                        (snd (handleAPIRequest env request w)))
                 = Ok (Some match CacheAPI.caches_match (key_of request)
                                    (caches (snd (handleAPIRequest env request w)))
                            with
                            | Some c => c
                            | None => offline_api_response
                            end)).
  { generalize (snd (handleAPIRequest env request w)). intros w1.
    run_js. rewrite Hdown. cbn [fst snd caches idb trace].
    destruct (CacheAPI.caches_match (key_of request) (caches w1)); reflexivity. }
  rewrite Hres, Hw1. split.
  - destruct (tier_hit_is_a_hit (key_of request) DYNAMIC_CACHE r
                (CacheAPI.update DYNAMIC_CACHE
                   (CacheAPI.cache_put (key_of request) r)
                   (CacheAPI.open DYNAMIC_CACHE (caches w)))) as [c Hc].
    { apply put_in_opened_tier. }
    exists c. rewrite Hc. split; reflexivity.
  - intros Hmiss.
    rewrite fresh_put_is_the_hit;
      [reflexivity | apply CacheFacts.has_open
      | rewrite caches_match_open; exact Hmiss].
Qed.

Lemma api_offline_after_online_witness :
  let request := Demo.get "/api/heritage/sites" "cors" in
  let w1 := snd (handleAPIRequest Demo.online request Demo.empty) in
  net Demo.online request = Some (mkResponse 200 "text/plain" (url request))
  /\ net Demo.offline request = None
  /\ fst (handleAPIRequest Demo.offline request w1)
     = Ok (Some (mkResponse 200 "text/plain" (url request))).
Proof.
  cbv zeta.
  destruct (api_offline_after_online Demo.online Demo.offline
              (Demo.get "/api/heritage/sites" "cors") Demo.empty
              (mkResponse 200 "text/plain"
                 (url (Demo.get "/api/heritage/sites" "cors")))
              eq_refl eq_refl eq_refl eq_refl) as [_ Hfresh].
  split; [reflexivity|]. split; [reflexivity|].
  exact (Hfresh eq_refl).
Defined.

(** X12: a static asset fetched once is served from the cache from then
    on: after a miss that the network answered successfully and with a
    response that [put] accepts (a GET over http(s), a status other than
    206), the same request is answered with that very response, without
    any network call and without changing the storage, whatever the
    network is by then. *)
Theorem static_asset_served_after_first_fetch env env' request w r :
  CacheAPI.caches_match (key_of request) (caches w) = None ->
  net env request = Some r -> ok r = true ->
  put_accepts env request r = true ->
  let w1 := snd (handleStaticAsset env request w) in
  let res := fst (handleStaticAsset env' request w1) in
  let w2 := snd (handleStaticAsset env' request w1) in
  res = Ok (Some r)
  /\ fetches (trace w2) = fetches (trace w1)
  /\ caches w2 = caches w1.
Proof.
  intros Hmiss Hnet Hok Hput. cbv zeta.
  assert (Hw1 : caches (snd (handleStaticAsset env request w))
                = CacheAPI.update STATIC_CACHE
                    (CacheAPI.cache_put (key_of request) r)
                    (CacheAPI.open STATIC_CACHE (caches w))).
  { run_js. rewrite Hmiss. cbn [fst snd caches idb trace].
    rewrite Hnet. cbn [fst snd caches idb trace]. rewrite Hok, Hput.
    reflexivity. }
  assert (Hhit : CacheAPI.caches_match (key_of request)
                   (caches (snd (handleStaticAsset env request w))) = Some r).
  { rewrite Hw1. apply fresh_put_is_the_hit;
      [apply CacheFacts.has_open | rewrite caches_match_open; exact Hmiss]. }
  revert Hhit. generalize (snd (handleStaticAsset env request w)). intros w1 Hhit.
  run_js. rewrite Hhit. cbn [fst snd caches idb trace].
  autorewrite with trace_db. repeat split.
Qed.

Lemma static_asset_served_after_first_fetch_witness :
  let request := Demo.get "/styles/new.css" "no-cors" in
  let w1 := snd (handleStaticAsset Demo.online request Demo.populated) in
  CacheAPI.caches_match (key_of request) (caches Demo.populated) = None
  /\ fst (handleStaticAsset Demo.offline request w1)
     = Ok (Some (mkResponse 200 "text/plain" (url request)))
  /\ fetches (trace (snd (handleStaticAsset Demo.offline request w1)))
     = fetches (trace w1).
Proof.
  cbv zeta.
  destruct (static_asset_served_after_first_fetch Demo.online Demo.offline
              (Demo.get "/styles/new.css" "no-cors") Demo.populated
              (mkResponse 200 "text/plain"
                 (url (Demo.get "/styles/new.css" "no-cors")))
              eq_refl eq_refl eq_refl eq_refl) as [Hres [Hf _]].
  split; [reflexivity|]. split; [exact Hres | exact Hf].
Defined.

(** X13: what a cache-bundle message stored is served offline: for a URL
    of the bundle whose answer was stored (a successful answer that [put]
    accepts), a later request with the key of that URL is answered by
    [handleHeritageContent] from the cache, without any network call,
    whatever the network is by then. *)
Theorem bundle_url_served_from_cache env env' sd u resp request w :
  In u (urlsToCache sd) ->
  net env (Request_of env u) = Some resp ->
  bundle_stores (fun _ => false) env u resp = true ->
  key_of request = key_of (Request_of env u) ->
  let w1 := snd (cacheHeritageSite env (Some sd) w) in
  let res := fst (handleHeritageContent env' request w1) in
  let w2 := snd (handleHeritageContent env' request w1) in
  (exists c, res = Ok (Some c))
  /\ fetches (trace w2) = fetches (trace w1)
  /\ caches w2 = caches w1.
Proof.
  intros Hin Hnet Hok Hkey. cbv zeta.
  pose proof (bundle_pass (fun _ => false) env (urlsToCache sd)
                (mkWorld (CacheAPI.open HERITAGE_CACHE (caches w)) (idb w) (trace w))
                (CacheFacts.has_open _ _)) as P.
  cbv zeta in P. cbn [caches idb trace] in P.
  destruct P as (P1 & _ & _ & _ & P5 & _).
  match type of P1 with
  | fst ?run = _ =>
      assert (E : cacheHeritageSite env (Some sd) w = run)
        by (unfold cacheHeritageSite, cacheHeritageSite_with;
            rewrite (try_catch_returns _ _ w tt); [reflexivity | exact P1])
  end.
  rewrite E.
  destruct (P5 u resp Hin Hnet Hok) as (u' & resp' & _ & _ & _ & _ & P5').
  rewrite <- Hkey in P5'.
  destruct (tier_hit_is_a_hit _ _ _ _ P5') as [c Hc].
  revert Hc. generalize (snd (for_of (urlsToCache sd)
    (fun u0 =>
       try_catch
         (response <- fetch env (Request_of env u0) ;;
          if ok response
          then rejecting_put (fun _ => false) env HERITAGE_CACHE
                 (Request_of env u0) response
          else ret tt)
         (fun error => ret tt))
    (mkWorld (CacheAPI.open HERITAGE_CACHE (caches w)) (idb w) (trace w)))).
  intros w1 Hc. run_js. rewrite Hc. cbn [fst snd caches idb trace].
  autorewrite with trace_db.
  split; [exists c; reflexivity | split; reflexivity].
Qed.

Lemma bundle_url_served_from_cache_witness :
  let u := "/assets/images/bateshwar-featured.jpg" in
  let w1 := snd (cacheHeritageSite Demo.flaky (Some Demo.site) Demo.empty) in
  In u (urlsToCache Demo.site)
  /\ bundle_stores (fun _ => false) Demo.flaky u
       (mkResponse 200 "text/plain" (url (Demo.get u "cors"))) = true
  /\ exists c, fst (handleHeritageContent Demo.offline (Demo.get u "cors") w1)
               = Ok (Some c).
Proof.
  cbv zeta.
  assert (Hin : In "/assets/images/bateshwar-featured.jpg"
                  (urlsToCache Demo.site)) by (left; reflexivity).
  destruct (bundle_url_served_from_cache Demo.flaky Demo.offline Demo.site
              "/assets/images/bateshwar-featured.jpg"
              (mkResponse 200 "text/plain"
                 (url (Demo.get "/assets/images/bateshwar-featured.jpg" "cors")))
              (Demo.get "/assets/images/bateshwar-featured.jpg" "cors")
              Demo.empty Hin eq_refl eq_refl eq_refl) as [Hres _].
  split; [exact Hin|]. split; [reflexivity | exact Hres].
Defined.

(** ** Invariants of the storage *)

Lemma bundle_loop_keeps_distinct_keys env : forall urls w,
  distinct_keys (caches w) ->
  distinct_keys
    (caches (snd (for_of urls (fun u =>
       try_catch
         (response <- fetch env (Request_of env u) ;;
          if ok response
          then rejecting_put (fun _ => false) env HERITAGE_CACHE
                 (Request_of env u) response
          else ret tt)
         (fun error => ret tt)) w))).
Proof.
  induction urls as [|u0 urls IH]; intros w H; [exact H|].
  match goal with
  | |- context [for_of (u0 :: urls) ?f w] =>
      assert (Hstep : for_of (u0 :: urls) f w = for_of urls f (snd (f u0 w)))
        by (cbn [for_of]; unfold bind at 1; rewrite cache_one; reflexivity);
      rewrite Hstep; clear Hstep
  end.
  apply IH. rewrite cache_one. cbn [snd].
  destruct (net env (Request_of env u0)) as [r|]; [|exact H].
  destruct (bundle_stores (fun _ => false) env u0 r); [|exact H].
  cbn [caches].
  apply distinct_keys_update; [|exact H].
  intros c. apply CacheFacts.cache_put_NoDup.
Qed.

(** X14: no operation of the worker leaves two entries with the same key in
    a cache: when every cache of the storage has distinct keys, so it is
    after a request is handled, after a run of the governor, after a
    cache-bundle message and after activation. *)
Theorem worker_keeps_distinct_keys env w :
  distinct_keys (caches w) ->
  (forall request,
      distinct_keys (caches (snd (handleFetchRequest env request w))))
  /\ distinct_keys (caches (snd (manageCacheSize env w)))
  /\ (forall payload,
        distinct_keys (caches (snd (cacheHeritageSite env payload w))))
  /\ (forall tag, distinct_keys (caches (snd (activate_at tag w)))).
Proof.
  intros H. split; [|split; [|split]].
  - intros request. rewrite handleFetchRequest_classify.
    apply strategies_keep_distinct_keys; exact H.
  - apply governor_keeps_distinct_keys; exact H.
  - intros [sd|].
    + pose proof (bundle_pass (fun _ => false) env (urlsToCache sd)
                    (mkWorld (CacheAPI.open HERITAGE_CACHE (caches w))
                       (idb w) (trace w))
                    (CacheFacts.has_open _ _)) as P.
      cbv zeta in P. destruct P as (P1 & _).
      match type of P1 with
      | fst ?run = _ =>
          assert (E : cacheHeritageSite env (Some sd) w = run)
            by (unfold cacheHeritageSite, cacheHeritageSite_with;
                rewrite (try_catch_returns _ _ w tt); [reflexivity | exact P1])
      end.
      rewrite E. apply bundle_loop_keeps_distinct_keys.
      cbn [caches]. apply distinct_keys_open; exact H.
    + cbv [cacheHeritageSite cacheHeritageSite_with try_catch bind caches_open
           modify_caches ret throw]. cbn [snd caches].
      apply distinct_keys_open; exact H.
  - intros tag. rewrite activate_at_run. cbn [snd caches].
    unfold distinct_keys in *. apply Forall_forall. intros nc Hin.
    apply filter_In in Hin. destruct Hin as [Hin _].
    revert nc Hin. apply Forall_forall. exact H.
Qed.

Lemma worker_keeps_distinct_keys_witness :
  distinct_keys (caches Demo.populated)
  /\ distinct_keys
       (caches (snd (handleFetchRequest Demo.online
                       (Demo.get "/api/tours" "cors") Demo.populated))).
Proof.
  assert (H : distinct_keys (caches Demo.populated)).
  { unfold distinct_keys. cbn.
    repeat (constructor;
            [cbn; repeat (constructor; [cbn; intuition discriminate|]);
             constructor|]).
    constructor. }
  split; [exact H|].
  destruct (worker_keeps_distinct_keys Demo.online Demo.populated H) as [Hf _].
  apply Hf.
Defined.

(** X15: once a worker built with [tag] has activated, [caches.match] never
    answers from a stale cache: every hit is an entry of a cache that bears
    one of the three current tier names. *)
Theorem activation_ends_stale_hits tag w k c :
  CacheAPI.caches_match k (caches (snd (activate_at tag w))) = Some c ->
  exists name cache,
    In (name, cache) (caches w)
    /\ is_current tag name = true
    /\ CacheAPI.cache_match k cache = Some c.
Proof.
  rewrite activate_at_run. cbn [snd caches].
  induction (caches w) as [|[n c0] cs IH]; cbn [filter fst]; intros H;
    [discriminate H|].
  destruct (is_current tag n) eqn:Hcur.
  - cbn [CacheAPI.caches_match] in H.
    destruct (CacheAPI.cache_match k c0) as [x|] eqn:E.
    + inversion H; subst. exists n, c0. repeat split; auto. left; reflexivity.
    + destruct (IH H) as (name & cache & Hin & Hc & Hm).
      exists name, cache. repeat split; auto. right; exact Hin.
  - destruct (IH H) as (name & cache & Hin & Hc & Hm).
    exists name, cache. repeat split; auto. right; exact Hin.
Qed.

Lemma activation_ends_stale_hits_witness :
  let k := key_of (Request_of Demo.offline "/index.html") in
  CacheAPI.caches_match k (caches Demo.populated) = Some (Demo.page "old shell")
  /\ CacheAPI.caches_match k (caches (snd (activate Demo.populated)))
     = Some (Demo.page "shell")
  /\ exists name cache,
       In (name, cache) (caches Demo.populated)
       /\ is_current VERSION name = true
       /\ CacheAPI.cache_match k cache = Some (Demo.page "shell").
Proof.
  cbv zeta. split; [reflexivity|]. split; [reflexivity|].
  apply (activation_ends_stale_hits VERSION Demo.populated). reflexivity.
Defined.

(** ** Clearing and reporting *)

Lemma clear_loop ns : forall w,
  for_of ns (fun cacheName => caches_delete cacheName) w
  = (Ok tt,
     mkWorld
       (filter (fun nc => negb (existsb (String.eqb (fst nc)) ns)) (caches w))
       (idb w) (trace w)).
Proof.
  induction ns as [|n ns IH]; intros w; cbn [for_of].
  - unfold ret. f_equal. destruct w as [cs db t]. cbn [caches idb trace].
    f_equal. symmetry. apply forallb_filter_id.
    apply forallb_forall. intros x _. reflexivity.
  - unfold bind at 1, caches_delete at 1, modify_caches at 1.
    rewrite IH. cbn [caches idb trace]. f_equal. f_equal.
    unfold CacheAPI.caches_delete.
    induction (caches w) as [|nc cs IHcs]; [reflexivity|].
    cbn [filter existsb]. rewrite (String.eqb_sym n (fst nc)).
    destruct (String.eqb (fst nc) n); cbn [negb orb filter];
      [exact IHcs|].
    destruct (negb (existsb (String.eqb (fst nc)) ns)); rewrite IHcs;
      reflexivity.
Qed.

Lemma filter_none {A} (f : A -> bool) l :
  (forall x, In x l -> f x = false) -> filter f l = [].
Proof.
  induction l as [|x l IH]; intros H; [reflexivity|].
  cbn [filter]. rewrite (H x (or_introl eq_refl)).
  apply IH. intros y Hy. apply H. right; exact Hy.
Qed.

(** X16: [clearAllCaches] ends normally and leaves no cache at all: the
    storage is empty afterwards, so every [caches.match] misses, and the
    queues are untouched. *)
Theorem clearAllCaches_empties_storage w :
  let w' := snd (clearAllCaches w) in
  fst (clearAllCaches w) = Ok tt
  /\ caches w' = []
  /\ idb w' = idb w
  /\ forall k, CacheAPI.caches_match k (caches w') = None.
Proof.
  cbv zeta.
  assert (E : clearAllCaches w = (Ok tt, mkWorld [] (idb w) (trace w))).
  { unfold clearAllCaches, try_catch.
    unfold bind at 1, caches_keys at 1, bind at 1, get_caches at 1, ret at 1.
    rewrite clear_loop. f_equal. f_equal.
    apply filter_none. intros x Hx. apply negb_false_iff.
    apply existsb_exists. exists (fst x).
    split; [apply in_map; exact Hx | apply String.eqb_refl]. }
  rewrite E. cbn [fst snd caches idb]. repeat split.
Qed.

Lemma obj_get_set_same {V} k (v : V) o : obj_get k (obj_set k v o) = Some v.
Proof.
  induction o as [|[k' v'] o IH]; cbn [obj_set obj_get].
  - rewrite String.eqb_refl. reflexivity.
  - destruct (String.eqb k k') eqn:E; cbn [obj_get]; rewrite E; auto.
Qed.

Lemma obj_get_set_other {V} k k' (v : V) o :
  k' <> k -> obj_get k' (obj_set k v o) = obj_get k' o.
Proof.
  intros Hne. apply String.eqb_neq in Hne.
  induction o as [|[k0 v0] o IH]; cbn [obj_set obj_get].
  - rewrite Hne. reflexivity.
  - destruct (String.eqb k k0) eqn:E; cbn [obj_get].
    + apply String.eqb_eq in E. subst k0. rewrite Hne. reflexivity.
    + destruct (String.eqb k' k0); auto.
Qed.

Lemma obj_get_assign_same {V} k (v : V) o :
  k <> "__proto__" -> obj_get k (obj_assign k v o) = Some v.
Proof.
  intros Hk. apply String.eqb_neq in Hk. unfold obj_assign. rewrite Hk.
  apply obj_get_set_same.
Qed.

Lemma obj_get_assign_other {V} k k' (v : V) o :
  k' <> k -> obj_get k' (obj_assign k v o) = obj_get k' o.
Proof.
  intros Hne. unfold obj_assign.
  destruct (String.eqb k "__proto__"); [reflexivity|].
  apply obj_get_set_other; exact Hne.
Qed.

Lemma obj_get_assign_proto {V} k (v : V) o :
  obj_get "__proto__" (obj_assign k v o) = obj_get "__proto__" o.
Proof.
  unfold obj_assign. destruct (String.eqb k "__proto__") eqn:E; [reflexivity|].
  apply String.eqb_neq in E. apply obj_get_set_other. congruence.
Qed.

Lemma status_loop_run ns : forall st cs db t,
  (forall n, In n ns -> CacheAPI.has n cs = true) ->
  status_loop ns st (mkWorld cs db t)
  = (Ok (fold_left
           (fun s n => obj_assign n (length (CacheAPI.tier n cs)) s) ns st),
     mkWorld cs db t).
Proof.
  induction ns as [|n ns IH]; intros st cs db t Hall; [reflexivity|].
  cbn [status_loop fold_left].
  unfold bind at 1, caches_open at 1, bind at 1, modify_caches at 1, ret at 1.
  cbn [caches idb trace].
  unfold bind at 1, cache_keys at 1, bind at 1, get_caches at 1, ret at 1.
  cbn [caches idb trace].
  assert (Hopen : CacheAPI.open n cs = cs)
    by (unfold CacheAPI.open; rewrite (Hall n (or_introl eq_refl)); reflexivity).
  rewrite Hopen. unfold CacheAPI.cache_keys at 1. rewrite length_map.
  apply IH. intros m Hm. apply Hall. right; exact Hm.
Qed.

Lemma status_fold_get cs name ns : name <> "__proto__" -> forall st,
  obj_get name
    (fold_left (fun s n => obj_assign n (length (CacheAPI.tier n cs)) s) ns st)
  = if existsb (String.eqb name) ns
    then Some (length (CacheAPI.tier name cs))
    else obj_get name st.
Proof.
  intros Hname.
  induction ns as [|n ns IH]; intros st; cbn [fold_left existsb];
    [reflexivity|].
  rewrite IH. destruct (existsb (String.eqb name) ns);
    [rewrite orb_true_r; reflexivity|].
  rewrite orb_false_r. destruct (String.eqb name n) eqn:E.
  - apply String.eqb_eq in E. subst n. apply obj_get_assign_same; exact Hname.
  - apply String.eqb_neq in E. apply obj_get_assign_other; exact E.
Qed.

Lemma status_fold_proto cs ns : forall st,
  obj_get "__proto__"
    (fold_left (fun s n => obj_assign n (length (CacheAPI.tier n cs)) s) ns st)
  = obj_get "__proto__" st.
Proof.
  induction ns as [|n ns IH]; intros st; cbn [fold_left]; [reflexivity|].
  rewrite IH. apply obj_get_assign_proto.
Qed.

Lemma getCacheStatus_run w :
  getCacheStatus w
  = (Ok (fold_left
           (fun s n => obj_assign n (length (CacheAPI.tier n (caches w))) s)
           (CacheAPI.caches_keys (caches w)) []),
     w).
Proof.
  destruct w as [cs db t]. unfold getCacheStatus, try_catch.
  unfold bind at 1, caches_keys at 1, bind at 1, get_caches at 1, ret at 1.
  cbn [caches]. rewrite status_loop_run; [reflexivity|].
  intros n Hn. unfold CacheAPI.caches_keys in Hn. unfold CacheAPI.has.
  apply existsb_exists. apply in_map_iff in Hn.
  destruct Hn as (nc & Hfst & Hin). exists nc. split; [exact Hin|].
  rewrite Hfst. apply String.eqb_refl.
Qed.

(** X17: [getCacheStatus] ends normally and leaves the world as it was (no
    cache is created by the report).  The object it returns has, under
    every name other than [__proto__], the number of entries of the cache
    of that name, and no property for a name that is no cache.  It has no
    property [__proto__], whether or not a cache has this name: the
    assignment [status[cacheName] = keys.length] makes none for it. *)
Theorem getCacheStatus_counts_entries w :
  snd (getCacheStatus w) = w
  /\ exists status,
       fst (getCacheStatus w) = Ok status
       /\ (forall name, name <> "__proto__" ->
             obj_get name status
             = option_map (@length _) (CacheAPI.lookup name (caches w)))
       /\ obj_get "__proto__" status = None.
Proof.
  rewrite getCacheStatus_run. cbn [fst snd]. split; [reflexivity|].
  eexists. split; [reflexivity|]. split.
  - intros name Hname.
    rewrite status_fold_get by exact Hname. cbn [obj_get].
    unfold CacheAPI.tier, CacheAPI.caches_keys.
    induction (caches w) as [|[n c] cs IH]; [reflexivity|].
    cbn [map existsb fst CacheAPI.lookup].
    destruct (String.eqb name n); [reflexivity | exact IH].
  - rewrite status_fold_proto. reflexivity.
Qed.

Lemma getCacheStatus_counts_entries_witness :
  let w := mkWorld [("__proto__", [Demo.entry "/a" "text/css"]);
                    (DYNAMIC_CACHE, [])] [] [] in
  snd (getCacheStatus w) = w
  /\ fst (getCacheStatus w) = Ok [(DYNAMIC_CACHE, 0)].
Proof.
  cbv zeta.
  destruct (getCacheStatus_counts_entries
              (mkWorld [("__proto__", [Demo.entry "/a" "text/css"]);
                        (DYNAMIC_CACHE, [])] [] [])) as [Hw _].
  split; [exact Hw | reflexivity].
Defined.

(** X18: a control message whose type is neither [CACHE_HERITAGE_SITE] nor
    [CLEAR_CACHE] leaves the world as it was.  [GET_CACHE_STATUS] posts the
    report of [getCacheStatus] when the message came with a port and posts
    nothing otherwise; [SKIP_WAITING] asks to activate; any other type is
    ignored. *)
Theorem message_listener_frame env d ports w :
  msg_type d <> "CACHE_HERITAGE_SITE" ->
  msg_type d <> "CLEAR_CACHE" ->
  snd (message_listener env (Some d) ports w) = w
  /\ fst (message_listener env (Some d) ports w)
     = if String.eqb (msg_type d) "GET_CACHE_STATUS" then
         match fst (getCacheStatus w), ports with
         | Ok status, S _ => Ok (PostedToPort status)
         | Ok status, O => Ok NoReply
         | Throw e, _ => Throw e
         end
       else if String.eqb (msg_type d) "SKIP_WAITING" then Ok SkipWaiting
       else Ok NoReply.
Proof.
  intros H1 H2. unfold message_listener.
  apply String.eqb_neq in H1. apply String.eqb_neq in H2. rewrite H1, H2.
  destruct (String.eqb (msg_type d) "GET_CACHE_STATUS").
  - unfold bind. rewrite getCacheStatus_run. cbn [fst snd].
    destruct ports; split; reflexivity.
  - destruct (String.eqb (msg_type d) "SKIP_WAITING"); split; reflexivity.
Qed.

Lemma message_listener_frame_witness :
  let d := mkMessageData "GET_CACHE_STATUS" None in
  msg_type d <> "CLEAR_CACHE"
  /\ snd (message_listener Demo.online (Some d) 1 Demo.populated)
     = Demo.populated
  /\ fst (message_listener Demo.online (Some d) 1 Demo.populated)
     = Ok (PostedToPort
             [("bharatvrsh-static-v1.1.0", 1); (STATIC_CACHE, 2);
              ("bharatvrsh-dynamic-v1.1.0", 1); (DYNAMIC_CACHE, 11);
              (HERITAGE_CACHE, 1)]).
Proof.
  cbv zeta.
  assert (H1 : msg_type (mkMessageData "GET_CACHE_STATUS" None)
               <> "CACHE_HERITAGE_SITE") by (cbn; discriminate).
  assert (H2 : msg_type (mkMessageData "GET_CACHE_STATUS" None)
               <> "CLEAR_CACHE") by (cbn; discriminate).
  destruct (message_listener_frame Demo.online
              (mkMessageData "GET_CACHE_STATUS" None) 1 Demo.populated H1 H2)
    as [Hw Hr].
  split; [exact H2|]. split; [exact Hw|]. rewrite Hr. reflexivity.
Defined.

(** ** The analytics flush and the sync listener *)

(** X19: the analytics flush sends one batch.  With the helpers as the
    source has them [syncAnalytics] reads an empty array, sends nothing and
    leaves the world as it was.  For whatever array the read gives, it ends
    normally, changes neither the caches nor the stored queues and calls
    no removal; for an empty array it sends nothing, and otherwise it
    sends exactly one request, a POST to [/api/analytics/events] whose
    body carries every event that was read, whether that request is
    answered or rejected. *)
Theorem analytics_flush_sends_one_batch env w pending :
  let r := syncAnalytics (reading pending) placeholder_clear env w in
  fst r = Ok tt
  /\ caches (snd r) = caches w
  /\ idb (snd r) = idb w
  /\ removals (trace (snd r)) = removals (trace w)
  /\ match pending with
     | [] => snd r = w
     | _ :: _ =>
         fetches (trace (snd r))
         = fetches (trace w) ++ [events_request env pending]
         /\ method (events_request env pending) = "POST"
         /\ url (events_request env pending)
            = href (new_URL env "/api/analytics/events")
         /\ body (events_request env pending)
            = Some (JSON_stringify_events pending)
     end
  /\ syncAnalytics placeholder_db placeholder_clear env w = (Ok tt, w).
Proof.
  cbv zeta.
  cbv [syncAnalytics try_catch bind fetch log ret throw getStoredData reading
       placeholder_clear].
  destruct pending as [|x q];
    cbn [length Nat.ltb Nat.leb fst snd caches idb trace].
  - repeat split.
  - destruct (net env (events_request env (x :: q))) as [resp|];
      cbn [fst snd caches idb trace]; autorewrite with trace_db;
      rewrite removals_app; cbn [removals flat_map app];
      rewrite app_nil_r; repeat split.
Qed.

Lemma try_catch_total {A} (m : M A) (a : A) w :
  (forall x : A, x = a) -> fst (try_catch m (fun _ => ret a) w) = Ok a.
Proof.
  intros Hone. unfold try_catch, ret.
  destruct (m w) as [[x|e] w']; cbn; [rewrite (Hone x)|]; reflexivity.
Qed.

Lemma bind_run {A B} (m : M A) (k : A -> M B) w a :
  fst (m w) = Ok a -> bind m k w = k a (snd (m w)).
Proof.
  unfold bind. destruct (m w) as [[x|e] w']; cbn; intros H;
    [inversion H; reflexivity | discriminate H].
Qed.

Lemma unit_is_tt : forall x : unit, x = tt.
Proof. intros []. reflexivity. Qed.

(** X20: a sync event runs the flush its tag names and no other, and the
    listener never throws, whatever the persistence helpers do: for
    [heritage-data-sync], [user-feedback-sync] and [analytics-sync] the
    world afterwards is the world the flush of that name leaves, and for
    any other tag the world is as it was. *)
Theorem sync_listener_runs_one_flush db clearStoredData env tag w :
  fst (sync_listener db clearStoredData env tag w) = Ok tt
  /\ snd (sync_listener db clearStoredData env tag w)
     = if String.eqb tag "heritage-data-sync"
       then snd (syncHeritageData db env w)
       else if String.eqb tag "user-feedback-sync"
       then snd (syncUserFeedback db env w)
       else if String.eqb tag "analytics-sync"
       then snd (syncAnalytics db clearStoredData env w)
       else w.
Proof.
  assert (Hh : forall w0, fst (syncHeritageData db env w0) = Ok tt)
    by (intros w0; apply try_catch_total, unit_is_tt).
  assert (Hf : forall w0, fst (syncUserFeedback db env w0) = Ok tt)
    by (intros w0; apply try_catch_total, unit_is_tt).
  assert (Ha : forall w0, fst (syncAnalytics db clearStoredData env w0) = Ok tt)
    by (intros w0; apply try_catch_total, unit_is_tt).
  unfold sync_listener.
  rewrite (bind_run _ _ w tt)
    by (destruct (String.eqb tag "heritage-data-sync"); [apply Hh | reflexivity]).
  rewrite (bind_run _ _ _ tt)
    by (destruct (String.eqb tag "user-feedback-sync"); [apply Hf | reflexivity]).
  split.
  - destruct (String.eqb tag "analytics-sync"); [apply Ha | reflexivity].
  - destruct (String.eqb tag "heritage-data-sync") eqn:E1.
    + apply String.eqb_eq in E1. subst tag. reflexivity.
    + destruct (String.eqb tag "user-feedback-sync") eqn:E2.
      * apply String.eqb_eq in E2. subst tag. reflexivity.
      * destruct (String.eqb tag "analytics-sync"); reflexivity.
Qed.

(** ** Notifications *)

Lemma obj_get_absent {V} k (o : list (string * V)) :
  ~ In k (map fst o) -> obj_get k o = None.
Proof.
  induction o as [|[k' v'] o IH]; cbn [map fst In obj_get]; intros H;
    [reflexivity|].
  destruct (String.eqb k k') eqn:E.
  - apply String.eqb_eq in E. exfalso. apply H. left. auto.
  - apply IH. intros Hin. apply H. right. exact Hin.
Qed.

(** The properties of [{...a, ...b}]: those of [b], then those of [a]. *)
Lemma spread_get {V} k (b : list (string * V)) : forall a,
  NoDup (map fst b) ->
  obj_get k (spread a b)
  = match obj_get k b with
    | Some v => Some v
    | None => obj_get k a
    end.
Proof.
  unfold spread.
  induction b as [|[k0 v0] b IH]; intros a Hnd; cbn [fold_left obj_get fst snd];
    [reflexivity|].
  cbn [map fst] in Hnd. inversion Hnd as [|? ? Hk Hb]; subst.
  rewrite IH by exact Hb.
  destruct (String.eqb k k0) eqn:E.
  - apply String.eqb_eq in E. subst k0.
    rewrite (obj_get_absent _ _ Hk). apply obj_get_set_same.
  - apply String.eqb_neq in E.
    rewrite obj_get_set_other by exact E. reflexivity.
Qed.

(** X21: the notification a push shows.  The title is always
    [BharatVRsh] and the icon, badge, tag and the two actions are always
    the built-in ones.  Without data, or with data that cannot be read,
    the options are the built-in ones.  With a payload, the body is the
    payload's when it has a non-empty one and the built-in text otherwise,
    and the data are the built-in data overridden and extended by the
    payload's. *)
Theorem push_shows_merged_options d :
  let opts := snd (Push.push_listener d) in
  fst (Push.push_listener d) = "BharatVRsh"
  /\ Push.icon opts = Push.icon Push.default_options
  /\ Push.badge opts = Push.badge Push.default_options
  /\ Push.tag opts = Push.tag Push.default_options
  /\ map Push.action (Push.actions opts) = ["explore"; "dismiss"]
  /\ Push.body opts <> EmptyString
  /\ match d with
     | Push.NoData => opts = Push.default_options
     | Push.Malformed => opts = Push.default_options
     | Push.Payload b dt =>
         Push.body opts
         = match b with
           | Some s => if String.eqb s EmptyString
                       then Push.body Push.default_options else s
           | None => Push.body Push.default_options
           end
         /\ (NoDup (map fst (or_empty dt)) ->
             forall key,
               obj_get key (Push.data opts)
               = match obj_get key (or_empty dt) with
                 | Some v => Some v
                 | None => obj_get key (Push.data Push.default_options)
                 end)
     end.
Proof.
  cbv zeta. destruct d as [| |b dt]; cbn [Push.push_listener fst snd].
  - repeat split. discriminate.
  - repeat split. discriminate.
  - cbn [Push.icon Push.badge Push.tag Push.actions Push.body Push.data].
    split; [reflexivity|]. split; [reflexivity|]. split; [reflexivity|].
    split; [reflexivity|]. split; [reflexivity|].
    split.
    + unfold Push.or_string. destruct b as [s|]; [|discriminate].
      destruct (String.eqb s EmptyString) eqn:E; [discriminate|].
      apply String.eqb_neq; exact E.
    + split; [reflexivity|].
      intros Hnd key. apply spread_get; exact Hnd.
Qed.

(** X22: what a click on a shown notification opens.  The notification is
    always closed.  A click on [Explore Now], or on the notification
    itself, opens one window: at the payload's [url] when the push brought
    a non-empty one, at [/] when it brought an empty one, and at
    [/#heritage-sites] when it brought none; any other action opens
    nothing. *)
Theorem click_opens_payload_url d act :
  (forall b dt, d = Push.Payload b dt -> NoDup (map fst (or_empty dt))) ->
  let opts := snd (Push.push_listener d) in
  let click := Push.notificationclick act (Push.data opts) in
  let payload_url :=
    match d with
    | Push.Payload _ dt => obj_get "url" (or_empty dt)
    | _ => None
    end in
  Push.closed click = true
  /\ Push.opened click
     = if String.eqb act "explore" || String.eqb act EmptyString
       then Some match payload_url with
                 | Some u => if String.eqb u EmptyString then "/" else u
                 | None => "/#heritage-sites"
                 end
       else None.
Proof.
  intros Hnd. cbv zeta. unfold Push.notificationclick.
  destruct (String.eqb act "explore" || String.eqb act EmptyString);
    cbn [Push.closed Push.opened]; [|split; reflexivity].
  split; [reflexivity|]. f_equal.
  destruct d as [| |b dt]; cbn [Push.push_listener snd Push.data];
    [reflexivity | reflexivity |].
  rewrite spread_get by (apply (Hnd b dt); reflexivity).
  destruct (obj_get "url" (or_empty dt)) as [u|]; reflexivity.
Qed.

Lemma click_opens_payload_url_witness :
  let d := Push.Payload (Some "Udaygiri caves are now in 3D")
             (Some [("site", "udaygiri"); ("url", EmptyString)]) in
  NoDup (map fst [("site", "udaygiri"); ("url", EmptyString)])
  /\ Push.opened
       (Push.notificationclick "explore" (Push.data (snd (Push.push_listener d))))
     = Some "/"
  /\ Push.opened
       (Push.notificationclick "dismiss" (Push.data (snd (Push.push_listener d))))
     = None.
Proof.
  cbv zeta.
  assert (Hnd : NoDup (map fst [("site", "udaygiri"); ("url", EmptyString)])).
  { cbn. repeat (constructor; [cbn; intuition discriminate|]). constructor. }
  assert (Hall : forall b dt,
            Push.Payload (Some "Udaygiri caves are now in 3D")
              (Some [("site", "udaygiri"); ("url", EmptyString)])
            = Push.Payload b dt -> NoDup (map fst (or_empty dt))).
  { intros b dt H. inversion H; subst. exact Hnd. }
  split; [exact Hnd|]. split.
  - destruct (click_opens_payload_url _ "explore" Hall) as [_ H]. exact H.
  - destruct (click_opens_payload_url _ "dismiss" Hall) as [_ H]. exact H.
Defined.

(** ** Installation *)

Lemma addAll_entries_complete env : forall urls es,
  addAll_entries env urls = Some es ->
  forall u, In u urls ->
    exists r, net env (Request_of env u) = Some r /\ ok r = true
              /\ put_accepts env (Request_of env u) r = true
              /\ In (key_of (Request_of env u), r) es.
Proof.
  induction urls as [|u0 urls IH]; intros es H u Hin; [destruct Hin|].
  cbn [addAll_entries] in H.
  destruct (net env (Request_of env u0)) as [r0|] eqn:Hn; [|discriminate H].
  destruct (ok r0) eqn:Ho; [|discriminate H].
  destruct (put_accepts env (Request_of env u0) r0) eqn:Hp; [|discriminate H].
  cbn [andb] in H.
  destruct (addAll_entries env urls) as [es'|]; [|discriminate H].
  cbn [option_map] in H. inversion H; subst es. clear H.
  destruct Hin as [<-|Hin].
  - exists r0. repeat split; auto. left; reflexivity.
  - destruct (IH es' eq_refl u Hin) as (r & Hr & Hok & Hpa & Hi).
    exists r. repeat split; auto. right; exact Hi.
Qed.

Lemma addAll_entries_keys env : forall urls es,
  addAll_entries env urls = Some es ->
  map fst es = map (fun u => key_of (Request_of env u)) urls.
Proof.
  induction urls as [|u0 urls IH]; intros es H.
  - cbn in H. inversion H. reflexivity.
  - cbn [addAll_entries] in H.
    destruct (net env (Request_of env u0)) as [r0|]; [|discriminate H].
    destruct (ok r0 && put_accepts env (Request_of env u0) r0);
      [|discriminate H].
    destruct (addAll_entries env urls) as [es'|]; [|discriminate H].
    cbn [option_map] in H. inversion H; subst es. clear H.
    cbn [map fst]. rewrite (IH es' eq_refl). reflexivity.
Qed.

Lemma addAll_entries_rejects env : forall urls u,
  In u urls ->
  (forall r, net env (Request_of env u) = Some r ->
     ok r = false \/ put_accepts env (Request_of env u) r = false) ->
  addAll_entries env urls = None.
Proof.
  intros urls u Hin Hbad.
  destruct (addAll_entries env urls) as [es|] eqn:E; [|reflexivity].
  destruct (addAll_entries_complete env urls es E u Hin)
    as (r & Hr & Hok & Hpa & _).
  destruct (Hbad r Hr); congruence.
Qed.

Lemma addAll_entries_accepts env : forall urls,
  (forall u, In u urls ->
     exists r, net env (Request_of env u) = Some r /\ ok r = true
               /\ put_accepts env (Request_of env u) r = true) ->
  exists es, addAll_entries env urls = Some es.
Proof.
  induction urls as [|u0 urls IH]; intros H; [exists []; reflexivity|].
  cbn [addAll_entries].
  destruct (H u0 (or_introl eq_refl)) as (r & Hr & Hok & Hpa).
  rewrite Hr, Hok, Hpa.
  destruct IH as [es Hes]; [intros u Hu; apply H; right; exact Hu|].
  rewrite Hes. eexists. reflexivity.
Qed.

(** What [put] accepts is over http(s): when every URL has an entry to
    store, every URL was requested. *)
Lemma addAll_requested_all env : forall urls es,
  addAll_entries env urls = Some es -> addAll_requested env urls = urls.
Proof.
  induction urls as [|u0 urls IH]; intros es H; [reflexivity|].
  cbn [addAll_entries addAll_requested] in *.
  destruct (net env (Request_of env u0)) as [r0|]; [|discriminate H].
  destruct (ok r0); [|discriminate H].
  destruct (put_accepts env (Request_of env u0) r0) eqn:Hp; [|discriminate H].
  cbn [andb] in H.
  destruct (addAll_entries env urls) as [es'|]; [|discriminate H].
  unfold put_accepts in Hp.
  apply andb_true_iff in Hp. destruct Hp as [Hp _].
  apply andb_true_iff in Hp. destruct Hp as [_ Hp].
  rewrite Hp, (IH es' eq_refl). reflexivity.
Qed.

Lemma addAll_requested_prefix env : forall urls,
  exists rest, urls = addAll_requested env urls ++ rest.
Proof.
  induction urls as [|u0 urls [rest IH]]; [exists []; reflexivity|].
  cbn [addAll_requested].
  destruct (is_http (new_URL env (url (Request_of env u0)))).
  - exists rest. cbn [app]. rewrite <- IH. reflexivity.
  - exists (u0 :: urls). reflexivity.
Qed.

Lemma keys_distinct_NoDup ks : keys_distinct ks = true <-> NoDup ks.
Proof.
  induction ks as [|k ks IH]; cbn [keys_distinct].
  - split; [constructor | reflexivity].
  - rewrite andb_true_iff, negb_true_iff, IH. split.
    + intros [Hk Hnd]. constructor; [|exact Hnd].
      intros Hin.
      assert (Ht : existsb (key_eqb k) ks = true)
        by (apply existsb_exists; exists k; split;
            [exact Hin | apply key_eqb_refl]).
      congruence.
    + intros Hnd. inversion Hnd as [|? ? Hk Hnd']; subst.
      split; [|exact Hnd'].
      destruct (existsb (key_eqb k) ks) eqn:E; [|reflexivity].
      apply existsb_exists in E. destruct E as (k' & Hin & Hk').
      apply key_eqb_eq in Hk'. subst k'. destruct (Hk Hin).
Qed.

Lemma NoDup_keys_functional (es : list (Key * Response)) :
  NoDup (map fst es) ->
  forall k r r', In (k, r) es -> In (k, r') es -> r' = r.
Proof.
  induction es as [|[k0 r0] es IH]; intros Hnd k r r' H H'; [destruct H|].
  cbn [map fst] in Hnd. inversion Hnd as [|? ? Hk Hnd']; subst.
  destruct H as [E|H]; destruct H' as [E'|H'].
  - congruence.
  - inversion E; subst. exfalso. apply Hk.
    apply (in_map fst) in H'. exact H'.
  - inversion E'; subst. exfalso. apply Hk.
    apply (in_map fst) in H. exact H.
  - apply (IH Hnd' k); assumption.
Qed.

(** The requests of [addAll]: all of them are recorded. *)
Lemma request_loop env urls : forall w,
  for_of urls (fun u => log (EvFetch (Request_of env u))) w
  = (Ok tt,
     mkWorld (caches w) (idb w)
       (trace w ++ map (fun u => EvFetch (Request_of env u)) urls)).
Proof.
  induction urls as [|u urls IH]; intros w; cbn [for_of map].
  - rewrite app_nil_r. destruct w; reflexivity.
  - unfold bind at 1, log at 1. rewrite IH. cbn [caches idb trace].
    rewrite <- app_assoc. reflexivity.
Qed.

Lemma fetches_requests env urls :
  fetches (map (fun u => EvFetch (Request_of env u)) urls)
  = map (Request_of env) urls.
Proof.
  induction urls as [|u urls IH]; [reflexivity|].
  cbn [map]. change (fetches (?e :: ?t)) with (fetches [e] ++ fetches t).
  cbn. rewrite <- IH. reflexivity.
Qed.

(** Storing a list of entries in an open tier. *)
Lemma put_all name : forall es w,
  CacheAPI.has name (caches w) = true ->
  let r := for_of es (fun e => cache_store name (fst e) (snd e)) w in
  let before := CacheAPI.tier name (caches w) in
  let after := CacheAPI.tier name (caches (snd r)) in
  fst r = Ok tt
  /\ (forall name', name' <> name ->
        CacheAPI.lookup name' (caches (snd r)) = CacheAPI.lookup name' (caches w))
  /\ fetches (trace (snd r)) = fetches (trace w)
  /\ (forall k, (forall r', ~ In (k, r') es) ->
        CacheAPI.cache_match k after = CacheAPI.cache_match k before)
  /\ (forall k resp, In (k, resp) es ->
        (forall r', In (k, r') es -> r' = resp) ->
        CacheAPI.cache_match k after = Some resp).
Proof.
  induction es as [|[k0 r0] es IH]; intros w Hhas; cbv zeta.
  - cbn. repeat split; auto. intros k resp [].
  - cbn [for_of fst snd].
    set (w1 := mkWorld
                 (CacheAPI.update name (CacheAPI.cache_put k0 r0) (caches w))
                 (idb w) (trace w ++ [EvCacheWrite name k0 r0])).
    assert (Hstep : forall f : Key * Response -> M unit,
              (cache_store name k0 r0 ;;; for_of es f) w = for_of es f w1)
      by (intros f; reflexivity).
    rewrite Hstep. clear Hstep.
    assert (Hhas1 : CacheAPI.has name (caches w1) = true)
      by (subst w1; cbn [caches]; rewrite CacheFacts.has_update; exact Hhas).
    destruct (IH w1 Hhas1) as (H1 & H2 & H3 & H4 & H5). cbv zeta in *.
    assert (Ht1 : CacheAPI.tier name (caches w1)
                  = CacheAPI.cache_put k0 r0 (CacheAPI.tier name (caches w)))
      by (subst w1; cbn [caches]; apply CacheFacts.tier_update_same; exact Hhas).
    split; [exact H1|].
    split; [intros name' Hne; rewrite H2 by exact Hne; subst w1; cbn [caches];
            apply CacheFacts.lookup_update_other; exact Hne|].
    split; [rewrite H3; subst w1; cbn [trace]; autorewrite with trace_db;
            reflexivity|].
    split.
    + intros k Hk. rewrite H4 by (intros r' Hin; apply (Hk r'); right; exact Hin).
      rewrite Ht1. apply CacheFacts.cache_match_put_other.
      intros Heq. subst k. apply (Hk r0). left; reflexivity.
    + intros k resp Hin Hfun.
      destruct (existsb (fun e => key_eqb k (fst e)) es) eqn:Hex.
      * apply existsb_exists in Hex. destruct Hex as ([k' r'] & Hin' & Hk).
        cbn [fst] in Hk. apply key_eqb_eq in Hk. subst k'.
        assert (r' = resp) by (apply Hfun; right; exact Hin'). subst r'.
        apply H5; [exact Hin'|].
        intros r'' Hr''. apply Hfun. right; exact Hr''.
      * assert (Hnone : forall r', ~ In (k, r') es).
        { intros r' Hr'.
          assert (Ht : existsb (fun e => key_eqb k (fst e)) es = true).
          { apply existsb_exists. exists (k, r'). split; [exact Hr'|].
            apply key_eqb_refl. }
          congruence. }
        destruct Hin as [Heq|Hin]; [|destruct (Hnone resp Hin)].
        inversion Heq; subst.
        rewrite H4 by exact Hnone. rewrite Ht1.
        apply CacheFacts.cache_match_put_same.
Qed.

Lemma install_run env w :
  let w0 :=
    mkWorld (CacheAPI.open STATIC_CACHE (caches w)) (idb w)
      (trace w ++ map (fun u => EvFetch (Request_of env u))
                    (addAll_requested env STATIC_ASSETS)) in
  install env w
  = match addAll_entries env STATIC_ASSETS with
    | Some es =>
        if keys_distinct (map fst es)
        then for_of es (fun e => cache_store STATIC_CACHE (fst e) (snd e)) w0
        else (Throw InvalidStateError, w0)
    | None => (Throw TypeError, w0)
    end.
Proof.
  cbv zeta. unfold install, cache_addAll.
  unfold bind at 1, caches_open at 1, bind at 1, modify_caches at 1, ret at 1.
  unfold bind at 1. rewrite request_loop. cbn [caches idb trace].
  destruct (addAll_entries env STATIC_ASSETS) as [es|]; [|reflexivity].
  destruct (keys_distinct (map fst es)); reflexivity.
Qed.

(** X23: installation is all or nothing.  No cache but the static tier is
    touched, and the assets are requested in the order of the list, up to
    the first whose URL is not over http(s).  When every asset is
    answered successfully and with a response that [put] accepts (a
    status other than 206 for a URL over http(s)), and no two assets have
    the same key, every asset is requested, the installation succeeds and
    the static tier holds, for every asset, the response it got.  When
    one asset's request is rejected, or answered with a status that is
    not successful or with a response that [put] refuses, the
    installation fails with a [TypeError]; and whenever the installation
    fails the static tier holds what it held before. *)
Theorem install_all_or_nothing env w :
  let r := install env w in
  let before := CacheAPI.tier STATIC_CACHE (caches w) in
  let after := CacheAPI.tier STATIC_CACHE (caches (snd r)) in
  (fetches (trace (snd r))
   = fetches (trace w)
     ++ map (Request_of env) (addAll_requested env STATIC_ASSETS)
   /\ exists rest, STATIC_ASSETS = addAll_requested env STATIC_ASSETS ++ rest)
  /\ (forall name, name <> STATIC_CACHE ->
        CacheAPI.lookup name (caches (snd r)) = CacheAPI.lookup name (caches w))
  /\ ((forall u, In u STATIC_ASSETS ->
         exists resp, net env (Request_of env u) = Some resp
                      /\ ok resp = true
                      /\ put_accepts env (Request_of env u) resp = true) ->
      NoDup (map (fun u => key_of (Request_of env u)) STATIC_ASSETS) ->
      fst r = Ok tt
      /\ fetches (trace (snd r))
         = fetches (trace w) ++ map (Request_of env) STATIC_ASSETS
      /\ forall u resp, In u STATIC_ASSETS ->
           net env (Request_of env u) = Some resp ->
           CacheAPI.cache_match (key_of (Request_of env u)) after = Some resp)
  /\ (forall u, In u STATIC_ASSETS ->
        (forall resp, net env (Request_of env u) = Some resp ->
           ok resp = false
           \/ put_accepts env (Request_of env u) resp = false) ->
        fst r = Throw TypeError)
  /\ (forall e, fst r = Throw e -> after = before).
Proof.
  cbv zeta. rewrite install_run. cbv zeta.
  set (w0 := mkWorld (CacheAPI.open STATIC_CACHE (caches w)) (idb w)
               (trace w ++ map (fun u => EvFetch (Request_of env u))
                             (addAll_requested env STATIC_ASSETS))).
  assert (Hf0 : fetches (trace w0)
                = fetches (trace w)
                  ++ map (Request_of env) (addAll_requested env STATIC_ASSETS))
    by (subst w0; cbn [trace]; rewrite fetches_app, fetches_requests;
        reflexivity).
  assert (Hl0 : forall name, name <> STATIC_CACHE ->
            CacheAPI.lookup name (caches w0) = CacheAPI.lookup name (caches w))
    by (intros name Hne; subst w0; cbn [caches];
        apply CacheFacts.lookup_open_other; exact Hne).
  assert (Ht0 : CacheAPI.tier STATIC_CACHE (caches w0)
                = CacheAPI.tier STATIC_CACHE (caches w))
    by (subst w0; cbn [caches]; apply CacheFacts.tier_open).
  assert (Hh0 : CacheAPI.has STATIC_CACHE (caches w0) = true)
    by (subst w0; cbn [caches]; apply CacheFacts.has_open).
  clearbody w0.
  pose proof (addAll_requested_prefix env STATIC_ASSETS) as Hpre.
  destruct (addAll_entries env STATIC_ASSETS) as [es|] eqn:Hes.
  - pose proof (addAll_entries_keys env _ es Hes) as Hkeys.
    pose proof (addAll_requested_all env _ es Hes) as Hreq.
    destruct (keys_distinct (map fst es)) eqn:Hd.
    + destruct (put_all STATIC_CACHE es w0 Hh0) as (P1 & P2 & P3 & _ & P5).
      cbv zeta in *.
      split; [split; [rewrite P3; exact Hf0 | exact Hpre]|].
      split; [intros name Hne; rewrite P2 by exact Hne; apply Hl0; exact Hne|].
      split; [|split].
      * intros _ _. split; [exact P1|].
        split; [rewrite P3, Hf0, Hreq; reflexivity|].
        intros u resp Hin Hnet.
        destruct (addAll_entries_complete env _ es Hes u Hin)
          as (r & Hr & _ & _ & Hi).
        replace resp with r by congruence.
        apply P5; [exact Hi|].
        intros r' Hr'.
        apply (NoDup_keys_functional es (proj1 (keys_distinct_NoDup _) Hd)
                 _ _ _ Hi Hr').
      * intros u Hin Hbad.
        rewrite (addAll_entries_rejects env _ u Hin Hbad) in Hes.
        discriminate Hes.
      * intros e He. rewrite P1 in He. discriminate He.
    + cbn [fst snd].
      split; [split; [exact Hf0 | exact Hpre]|]. split; [exact Hl0|].
      split; [|split].
      * intros _ Hnd. rewrite <- Hkeys in Hnd.
        apply keys_distinct_NoDup in Hnd. congruence.
      * intros u Hin Hbad.
        rewrite (addAll_entries_rejects env _ u Hin Hbad) in Hes.
        discriminate Hes.
      * intros e _. exact Ht0.
  - cbn [fst snd].
    split; [split; [exact Hf0 | exact Hpre]|]. split; [exact Hl0|].
    split; [|split].
    + intros Hall _. destruct (addAll_entries_accepts env _ Hall) as [es Hes'].
      congruence.
    + intros u Hin Hbad. reflexivity.
    + intros e _. exact Ht0.
Qed.

(** X24: what installation stored is served without the network: after an
    installation in which every asset was answered successfully and with
    a response that [put] accepts, no two assets having the same key, a
    request with the key of any pre-cached asset is answered by
    [handleStaticAsset] from the cache, with no network call and no change
    of the storage, whatever the network is by then. *)
Theorem precached_asset_served_from_cache env env' u request w :
  (forall u', In u' STATIC_ASSETS ->
     exists resp, net env (Request_of env u') = Some resp
                  /\ ok resp = true
                  /\ put_accepts env (Request_of env u') resp = true) ->
  NoDup (map (fun u' => key_of (Request_of env u')) STATIC_ASSETS) ->
  In u STATIC_ASSETS ->
  key_of request = key_of (Request_of env u) ->
  let w1 := snd (install env w) in
  let res := fst (handleStaticAsset env' request w1) in
  let w2 := snd (handleStaticAsset env' request w1) in
  (exists c, res = Ok (Some c))
  /\ fetches (trace w2) = fetches (trace w1)
  /\ caches w2 = caches w1.
Proof.
  intros Hall Hnd Hin Hkey. cbv zeta.
  assert (Hhit : exists c,
            CacheAPI.caches_match (key_of request) (caches (snd (install env w)))
            = Some c).
  { rewrite install_run. cbv zeta.
    destruct (addAll_entries env STATIC_ASSETS) as [es|] eqn:Hes.
    - pose proof (addAll_entries_keys env _ es Hes) as Hkeys.
      rewrite <- Hkeys in Hnd.
      rewrite (proj2 (keys_distinct_NoDup _) Hnd).
      match goal with
      | |- context [for_of es _ ?w0] =>
          destruct (put_all STATIC_CACHE es w0 (CacheFacts.has_open _ _))
            as (_ & _ & _ & _ & P5)
      end.
      cbv zeta in P5.
      destruct (addAll_entries_complete env _ es Hes u Hin)
        as (r & Hr & _ & _ & Hi).
      apply (tier_hit_is_a_hit _ STATIC_CACHE r). rewrite Hkey.
      apply P5; [exact Hi|].
      intros r' Hr'. apply (NoDup_keys_functional es Hnd _ _ _ Hi Hr').
    - destruct (addAll_entries_accepts env _ Hall) as [es Hes']. congruence. }
  destruct Hhit as [c Hc]. revert Hc.
  generalize (snd (install env w)). intros w1 Hc.
  run_js. rewrite Hc. cbn [fst snd caches idb trace].
  autorewrite with trace_db.
  split; [exists c; reflexivity | split; reflexivity].
Qed.

Lemma precached_asset_served_from_cache_witness :
  let request := Demo.get "/styles/main.css" "no-cors" in
  let w1 := snd (install Demo.online Demo.empty) in
  In "/styles/main.css" STATIC_ASSETS
  /\ fst (install Demo.online Demo.empty) = Ok tt
  /\ exists c, fst (handleStaticAsset Demo.offline request w1) = Ok (Some c).
Proof.
  cbv zeta.
  assert (Hall : forall u', In u' STATIC_ASSETS ->
            exists resp, net Demo.online (Request_of Demo.online u') = Some resp
                         /\ ok resp = true
                         /\ put_accepts Demo.online
                              (Request_of Demo.online u') resp = true).
  { intros u' Hu. eexists. split; [reflexivity|]. split; [reflexivity|].
    cbn [In STATIC_ASSETS] in Hu.
    repeat (destruct Hu as [<-|Hu]; [vm_compute; reflexivity|]).
    destruct Hu. }
  assert (Hnd : NoDup (map (fun u' => key_of (Request_of Demo.online u'))
                         STATIC_ASSETS))
    by (apply keys_distinct_NoDup; vm_compute; reflexivity).
  assert (Hin : In "/styles/main.css" STATIC_ASSETS)
    by (cbn; intuition).
  destruct (precached_asset_served_from_cache Demo.online Demo.offline
              "/styles/main.css" (Demo.get "/styles/main.css" "no-cors")
              Demo.empty Hall Hnd Hin eq_refl) as [Hres _].
  split; [exact Hin|]. split; [vm_compute; reflexivity | exact Hres].
Defined.

(** ** Background sync as the worker ships *)

(** X25: with the persistence helpers as the source has them (the read
    gives an empty array, the removal and the clearing only report), no
    sync event sends a request or changes anything: whatever the tag and
    the network, the listener ends normally and the world is as it was. *)
Theorem sync_is_idle_with_source_helpers env tag w :
  sync_listener placeholder_db placeholder_clear env tag w = (Ok tt, w).
Proof.
  unfold sync_listener.
  destruct (String.eqb tag "heritage-data-sync");
    destruct (String.eqb tag "user-feedback-sync");
    destruct (String.eqb tag "analytics-sync"); reflexivity.
Qed.
